(** * SME assessment front end: HTTP client, gateway, local history, results page

    A shallow embedding of the TypeScript sources

    - [api/client.ts]      ([request]),
    - [api/assessment.ts]  ([healthCheck], [createAssessment], [getAssessment],
                            [getAssessmentReport], [getAssessmentAI]),
    - [utils/history.ts]   ([getHistory], [addToHistory], [clearHistory]),
    - [pages/ResultsPage.tsx] (the [fetchData] effect),

    together with the properties the specification states about them.

    TypeScript types are erased at run time: what [response.json()] and
    [JSON.parse] hand back is whatever the text denotes.  Values are therefore
    modelled as untyped JavaScript values, and the typed views ([HistoryItem])
    are encodings into them.  Promises are modelled by their settled outcome
    ([result]): [await] is monadic bind, [.catch] is a handler on [Err].
    The browser is a parameter of the development: [fetch], [JSON.parse],
    [JSON.stringify] and the build-time environment are section variables, and
    [localStorage] is a finite map from keys to strings that is passed
    explicitly.  Console logging is not modelled. *)

From Stdlib Require Import ZArith String Ascii List Bool Lia.
From stdpp Require Import base tactics option list gmap strings pretty.

Set Warnings "-register-all".
Local Open Scope string_scope.
Local Open Scope Z_scope.

(** ** JavaScript values *)

(** Strings stand for JavaScript strings (as their UTF-8 bytes).  Numbers are
    integer valued: the modelled code only tests numbers for truthiness,
    compares them and hands them back to [JSON.stringify]. *)
Inductive value : Type :=
| VUndefined
| VNull
| VBool (b : bool)
| VNum (n : Z)
| VStr (s : string)
| VArr (elems : list value)
| VObj (props : list (string * value)).

(** Thrown values.  Everything the modelled code throws or sees thrown is an
    [Error] object; only its [message] is ever read. *)
Inductive exn : Type :=
| Error (msg : string)
| TypeError (msg : string)
| SyntaxError (msg : string).

Definition message (e : exn) : string :=
  match e with
  | Error m | TypeError m | SyntaxError m => m
  end.

(** The outcome of an evaluation that may throw, or of a settled promise. *)
Inductive result (A : Type) : Type :=
| Ok (a : A)
| Err (e : exn).
Arguments Ok {A} a.
Arguments Err {A} e.

#[global]
Instance result_ret : MRet result := fun A a => Ok a.

#[global]
Instance result_bind : MBind result := fun A B f m =>
  match m with
  | Ok a => f a
  | Err e => Err e
  end.

(** [ToBoolean]. *)
Definition truthy (v : value) : bool :=
  match v with
  | VUndefined | VNull => false
  | VBool b => b
  | VNum n => negb (n =? 0)
  | VStr s => negb (String.eqb s "")
  | VArr _ | VObj _ => true
  end.

(** [a || b]. *)
Definition or_else (a b : value) : value := if truthy a then a else b.

Fixpoint lookup_prop (key : string) (props : list (string * value)) : value :=
  match props with
  | [] => VUndefined
  | (k, v) :: rest => if String.eqb k key then v else lookup_prop key rest
  end.

(** The wording of V8 for a property read on [null] or [undefined]. *)
Definition cannot_read (v : value) (key : string) : string :=
  "Cannot read properties of " +:+
  (match v with VNull => "null" | _ => "undefined" end) +:+
  " (reading '" +:+ key +:+ "')".

(** [v.key], for the keys the sources read ([detail], [report_md], [ai_md],
    [id], [company], [industry], [created_at]): none of them is a property of
    a prototype, so only own properties of objects answer. *)
Definition get (v : value) (key : string) : result value :=
  match v with
  | VUndefined | VNull => Err (TypeError (cannot_read v key))
  | VObj props => Ok (lookup_prop key props)
  | VBool _ | VNum _ | VStr _ | VArr _ => Ok VUndefined
  end.

(** [v?.key]: [undefined] on [null] and [undefined], and [v.key] otherwise. *)
Definition prop (v : value) (key : string) : value :=
  match v with
  | VObj props => lookup_prop key props
  | _ => VUndefined
  end.

(** [a === b].  Arrays and objects compare by identity; the operands the
    sources compare come from different evaluations and never alias. *)
Definition strict_eq (a b : value) : bool :=
  match a, b with
  | VUndefined, VUndefined => true
  | VNull, VNull => true
  | VBool x, VBool y => Bool.eqb x y
  | VNum x, VNum y => x =? y
  | VStr x, VStr y => String.eqb x y
  | _, _ => false
  end.

(** [s.includes(sub)]. *)
Fixpoint includes (s sub : string) : bool :=
  String.prefix sub s ||
  match s with
  | EmptyString => false
  | String _ s' => includes s' sub
  end.

(** [Array.prototype.filter] with a callback that may throw: elements are
    visited in order and the first exception aborts the traversal. *)
Fixpoint filter_result {A : Type} (callback : A -> result bool) (l : list A)
  : result (list A) :=
  match l with
  | [] => Ok []
  | h :: t =>
      keep ← callback h;
      t' ← filter_result callback t;
      mret (if keep : bool then h :: t' else t')
  end.

(** ** Strings as JavaScript measures them

    [length] counts UTF-16 code units and [trim] removes white space as
    ECMAScript defines it; both are read off the code points of the UTF-8
    text. *)

(** The code points of a UTF-8 text.  A byte that starts no well-formed
    sequence counts for itself. *)
Fixpoint code_points (s : string) : list N :=
  match s with
  | EmptyString => []
  | String a r =>
      let b := N_of_ascii a in
      let low (c : ascii) : N := (N_of_ascii c mod 64)%N in
      if (b <? 192)%N then b :: code_points r
      else if (b <? 224)%N then
        match r with
        | String a1 r1 => ((b - 192) * 64 + low a1)%N :: code_points r1
        | EmptyString => [b]
        end
      else if (b <? 240)%N then
        match r with
        | String a1 (String a2 r2) =>
            (((b - 224) * 64 + low a1) * 64 + low a2)%N :: code_points r2
        | _ => b :: code_points r
        end
      else
        match r with
        | String a1 (String a2 (String a3 r3)) =>
            ((((b - 240) * 64 + low a1) * 64 + low a2) * 64 + low a3)%N
              :: code_points r3
        | _ => b :: code_points r
        end
  end.

(** [s.length] of the string with these code points: a code point beyond the
    basic plane takes two code units. *)
Fixpoint units (points : list N) : nat :=
  match points with
  | [] => O
  | c :: r => ((if (c <? 65536)%N then 1 else 2) + units r)%nat
  end.

(** White space and line terminators (ECMA-262, 12.2 and 12.3). *)
Definition is_space (c : N) : bool :=
  ((9 <=? c) && (c <=? 13) || (c =? 32) || (c =? 160) || (c =? 5760)
   || (8192 <=? c) && (c <=? 8202) || (c =? 8232) || (c =? 8233)
   || (c =? 8239) || (c =? 8287) || (c =? 12288) || (c =? 65279))%N.

Fixpoint trim_start (points : list N) : list N :=
  match points with
  | c :: r => if is_space c then trim_start r else points
  | [] => []
  end.

(** [s.trim()]. *)
Definition trim (points : list N) : list N :=
  reverse (trim_start (reverse (trim_start points))).

(** ** types.ts *)

Module HistoryItem.
Record t : Type := mk {
  id : string;
  company : string;
  industry : string;
  created_at : string
}.
End HistoryItem.

(** The object a [HistoryItem] is at run time, with its properties in the
    order the sources write them. *)
Definition of_item (h : HistoryItem.t) : value :=
  VObj [("id", VStr (HistoryItem.id h));
        ("company", VStr (HistoryItem.company h));
        ("industry", VStr (HistoryItem.industry h));
        ("created_at", VStr (HistoryItem.created_at h))].

Definition of_history (l : list HistoryItem.t) : value := VArr (of_item <$> l).

(** The list [addToHistory] leaves when it inserts [s] into the list [l]:
    [s], then the entries of [l] with another id. *)
Definition inserted (s : HistoryItem.t) (l : list HistoryItem.t)
  : list HistoryItem.t :=
  s :: filter (fun h => HistoryItem.id h <> HistoryItem.id s) l.

(** ** A reference JSON codec

    [JSON.parse] and [JSON.stringify] belong to the browser and are parameters
    of the development below.  This module is one concrete codec, used to run
    the sources on concrete inputs.  It follows ECMA-404 and the output format
    of [JSON.stringify], for texts whose numerals are integers of magnitude at
    most 2^53 and whose [\u] escapes are not surrogates; other numerals and
    escapes are refused.  Integer-like property names are kept in the order
    they are written. *)
Module RefJSON.

Definition dquote : ascii := ascii_of_nat 34.
Definition backslash : ascii := ascii_of_nat 92.

Definition hex_digit (n : nat) : ascii :=
  ascii_of_nat (if (n <? 10)%nat then 48 + n else 87 + n).

Definition escape_char (c : ascii) : string :=
  let n := nat_of_ascii c in
  if (n =? 34)%nat then String backslash (String dquote "")
  else if (n =? 92)%nat then String backslash (String backslash "")
  else if (n =? 8)%nat then String backslash "b"
  else if (n =? 9)%nat then String backslash "t"
  else if (n =? 10)%nat then String backslash "n"
  else if (n =? 12)%nat then String backslash "f"
  else if (n =? 13)%nat then String backslash "r"
  else if (n <? 32)%nat then
    String backslash
      (String "u" (String "0" (String "0"
        (String (hex_digit (n / 16)) (String (hex_digit (n mod 16)) "")))))
  else String c "".

Fixpoint escape (s : string) : string :=
  match s with
  | EmptyString => ""
  | String c r => escape_char c +:+ escape r
  end.

Definition quoted (s : string) : string :=
  String dquote (escape s +:+ String dquote "").

(** [JSON.stringify(v)].  Properties whose value is [undefined] are left out
    and an [undefined] array element is written [null]; the sources never
    apply it to [undefined] itself. *)
Fixpoint stringify (v : value) : string :=
  match v with
  | VUndefined => "undefined"
  | VNull => "null"
  | VBool true => "true"
  | VBool false => "false"
  | VNum n => pretty n
  | VStr s => quoted s
  | VArr elems =>
      "[" +:+
      String.concat ","
        ((fix elements (l : list value) : list string :=
            match l with
            | [] => []
            | VUndefined :: r => "null" :: elements r
            | e :: r => stringify e :: elements r
            end) elems) +:+
      "]"
  | VObj props =>
      "{" +:+
      String.concat ","
        ((fix members (l : list (string * value)) : list string :=
            match l with
            | [] => []
            | (_, VUndefined) :: r => members r
            | (k, x) :: r => (quoted k +:+ ":" +:+ stringify x) :: members r
            end) props) +:+
      "}"
  end.

Definition is_ws (c : ascii) : bool :=
  let n := nat_of_ascii c in
  (n =? 32)%nat || (n =? 9)%nat || (n =? 10)%nat || (n =? 13)%nat.

Fixpoint skip_ws (s : string) : string :=
  match s with
  | String c r => if is_ws c then skip_ws r else s
  | EmptyString => s
  end.

Definition hex_value (c : ascii) : option N :=
  let n := N_of_ascii c in
  (if (48 <=? n) && (n <=? 57) then Some (n - 48)
   else if (97 <=? n) && (n <=? 102) then Some (n - 87)
   else if (65 <=? n) && (n <=? 70) then Some (n - 55)
   else None)%N.

Definition hex4 (a b c d : ascii) : option N :=
  x ← hex_value a; y ← hex_value b; z ← hex_value c; w ← hex_value d;
  Some (((x * 16 + y) * 16 + z) * 16 + w)%N.

(** The UTF-8 bytes of a code point of the basic plane; surrogates are
    refused. *)
Definition utf8 (code : N) : option string :=
  (if code <? 128 then Some (String (ascii_of_N code) "")
   else if code <? 2048 then
     Some (String (ascii_of_N (192 + code / 64))
            (String (ascii_of_N (128 + code mod 64)) ""))
   else if (55296 <=? code) && (code <=? 57343) then None
   else
     Some (String (ascii_of_N (224 + code / 4096))
            (String (ascii_of_N (128 + (code / 64) mod 64))
              (String (ascii_of_N (128 + code mod 64)) ""))))%N.

Definition unescape (c : ascii) : option ascii :=
  let n := nat_of_ascii c in
  if (n =? 34)%nat || (n =? 92)%nat || (n =? 47)%nat then Some c
  else if (n =? 98)%nat then Some (ascii_of_nat 8)
  else if (n =? 116)%nat then Some (ascii_of_nat 9)
  else if (n =? 110)%nat then Some (ascii_of_nat 10)
  else if (n =? 102)%nat then Some (ascii_of_nat 12)
  else if (n =? 114)%nat then Some (ascii_of_nat 13)
  else None.

(** The characters of a string literal, after its opening quote, up to and
    including the closing quote. *)
Fixpoint parse_chars (s : string) : option (string * string) :=
  match s with
  | EmptyString => None
  | String c r =>
      let n := nat_of_ascii c in
      if (n =? 34)%nat then Some ("", r)
      else if (n =? 92)%nat then
        match r with
        | String e r' =>
            if (nat_of_ascii e =? 117)%nat then
              match r' with
              | String h1 (String h2 (String h3 (String h4 r''))) =>
                  code ← hex4 h1 h2 h3 h4;
                  bytes ← utf8 code;
                  '(t, rest) ← parse_chars r'';
                  Some (bytes +:+ t, rest)
              | _ => None
              end
            else
              ch ← unescape e;
              '(t, rest) ← parse_chars r';
              Some (String ch t, rest)
        | EmptyString => None
        end
      else if (n <? 32)%nat then None
      else
        '(t, rest) ← parse_chars r;
        Some (String c t, rest)
  end.

Definition digit_of (c : ascii) : option Z :=
  let n := nat_of_ascii c in
  if (48 <=? n)%nat && (n <=? 57)%nat then Some (Z.of_nat n - 48) else None.

Fixpoint parse_digits (acc : Z) (s : string) : Z * string :=
  match s with
  | String c r =>
      match digit_of c with
      | Some d => parse_digits (10 * acc + d) r
      | None => (acc, s)
      end
  | EmptyString => (acc, s)
  end.

(** An unsigned integer numeral: a zero stands alone. *)
Definition parse_nat (s : string) : option (Z * string) :=
  match s with
  | String c r =>
      d ← digit_of c;
      Some (if d =? 0 then (0, r) else parse_digits d r)
  | EmptyString => None
  end.

Definition starts_fraction (s : string) : bool :=
  match s with
  | String c _ =>
      let n := nat_of_ascii c in (n =? 46)%nat || (n =? 101)%nat || (n =? 69)%nat
  | EmptyString => false
  end.

Definition parse_number (s : string) : option (value * string) :=
  let '(negative, digits) :=
    match s with
    | String c r => if (nat_of_ascii c =? 45)%nat then (true, r) else (false, s)
    | EmptyString => (false, s)
    end in
  '(n, rest) ← parse_nat digits;
  if starts_fraction rest || (2 ^ 53 <? n) then None
  else Some (VNum (if negative : bool then - n else n), rest).

(** [obj[k] = v] on the properties read so far: a repeated name keeps its
    place and takes the later value. *)
Fixpoint set_prop (k : string) (v : value) (props : list (string * value))
  : list (string * value) :=
  match props with
  | [] => [(k, v)]
  | (k', v') :: r =>
      if String.eqb k' k then (k', v) :: r else (k', v') :: set_prop k v r
  end.

Definition make_object (members : list (string * value)) : value :=
  VObj (foldl (fun acc '(k, v) => set_prop k v acc) [] members).

Definition strip (lit : string) (s : string) : option string :=
  if String.prefix lit s
  then Some (String.substring (String.length lit)
               (String.length s - String.length lit) s)
  else None.

Fixpoint parse_value (fuel : nat) (s : string) : option (value * string) :=
  match fuel with
  | O => None
  | S fuel =>
      match skip_ws s with
      | EmptyString => None
      | String c r =>
          let n := nat_of_ascii c in
          if (n =? 91)%nat then
            match skip_ws r with
            | String c' r' =>
                if (nat_of_ascii c' =? 93)%nat then Some (VArr [], r')
                else '(l, rest) ← parse_elements fuel r; Some (VArr l, rest)
            | EmptyString => None
            end
          else if (n =? 123)%nat then
            match skip_ws r with
            | String c' r' =>
                if (nat_of_ascii c' =? 125)%nat then Some (VObj [], r')
                else '(l, rest) ← parse_members fuel r; Some (make_object l, rest)
            | EmptyString => None
            end
          else if (n =? 34)%nat then
            '(str, rest) ← parse_chars r; Some (VStr str, rest)
          else if (n =? 110)%nat then
            rest ← strip "null" (String c r); Some (VNull, rest)
          else if (n =? 116)%nat then
            rest ← strip "true" (String c r); Some (VBool true, rest)
          else if (n =? 102)%nat then
            rest ← strip "false" (String c r); Some (VBool false, rest)
          else parse_number (String c r)
      end
  end
with parse_elements (fuel : nat) (s : string) : option (list value * string) :=
  match fuel with
  | O => None
  | S fuel =>
      '(v, rest) ← parse_value fuel s;
      match skip_ws rest with
      | String c r =>
          if (nat_of_ascii c =? 44)%nat then
            '(l, rest') ← parse_elements fuel r; Some (v :: l, rest')
          else if (nat_of_ascii c =? 93)%nat then Some ([v], r)
          else None
      | EmptyString => None
      end
  end
with parse_members (fuel : nat) (s : string)
  : option (list (string * value) * string) :=
  match fuel with
  | O => None
  | S fuel =>
      match skip_ws s with
      | String q r =>
          if (nat_of_ascii q =? 34)%nat then
            '(k, rest) ← parse_chars r;
            match skip_ws rest with
            | String c r2 =>
                if (nat_of_ascii c =? 58)%nat then
                  '(v, rest2) ← parse_value fuel r2;
                  match skip_ws rest2 with
                  | String c' r3 =>
                      if (nat_of_ascii c' =? 44)%nat then
                        '(l, rest3) ← parse_members fuel r3;
                        Some ((k, v) :: l, rest3)
                      else if (nat_of_ascii c' =? 125)%nat then Some ([(k, v)], r3)
                      else None
                  | EmptyString => None
                  end
                else None
            | EmptyString => None
            end
          else None
      | EmptyString => None
      end
  end.

(** [JSON.parse(text)]: one value, surrounded by white space only. *)
Definition parse (text : string) : result value :=
  match parse_value (S (String.length text)) text with
  | Some (v, rest) =>
      match skip_ws rest with
      | EmptyString => Ok v
      | String _ _ => Err (SyntaxError "Unexpected non-whitespace character after JSON")
      end
  | None => Err (SyntaxError "Unexpected token in JSON")
  end.

(** The text of one member whose value is a string, and the members of a
    summary, as [stringify] writes them. *)
Definition member_text (kv : string * string) : string :=
  quoted kv.1 +:+ ":" +:+ quoted kv.2.

Definition item_members (h : HistoryItem.t) : list (string * string) :=
  [("id", HistoryItem.id h); ("company", HistoryItem.company h);
   ("industry", HistoryItem.industry h);
   ("created_at", HistoryItem.created_at h)].

End RefJSON.

(** ** The Fetch API, as far as the sources use it *)

Inductive FormDataEntryValue : Type :=
| FormText (text : string)
| FormFile (filename contents : string).

Definition FormData : Type := list (string * FormDataEntryValue).

(** [RequestOptions]: the members of [RequestInit] the sources set.  A member
    that is left out is [None]. *)
Record RequestInit : Type := mkRequestInit {
  method : option string;
  headers : option (list (string * string));
  body : option FormData
}.

(** [options = {}]. *)
Definition no_options : RequestInit :=
  {| method := None; headers := None; body := None |}.

(** What the sources read of a [Response].  [content_type] is
    [response.headers.get('content-type')], [None] for [null]; [text] is the
    body, which [response.text()] resolves to and [response.json()] parses. *)
Record Response : Type := mkResponse {
  status : Z;
  statusText : string;
  content_type : option string;
  text : string
}.

(** [response.ok]: the status is in the range 200-299. *)
Definition ok (response : Response) : bool :=
  (200 <=? status response) && (status response <=? 299).

(** [`Error ${response.status}: ${response.statusText}`]. *)
Definition status_message (response : Response) : string :=
  "Error " +:+ pretty (status response) +:+ ": " +:+ statusText response.

(** [{...h}] for an optional record of headers. *)
Definition spread (h : option (list (string * string))) : list (string * string) :=
  default [] h.

Fixpoint header (name : string) (hs : list (string * string)) : option string :=
  match hs with
  | [] => None
  | (k, v) :: r => if String.eqb k name then Some v else header name r
  end.

(** [{...options, headers}] with [headers = {...options.headers}]: the
    configuration [request] hands to [fetch]. *)
Definition with_headers (options : RequestInit) : RequestInit :=
  let headers := spread (headers options) in
  {| method := method options; headers := Some headers; body := body options |}.

(** The options of the three [GET] operations of the gateway. *)
Definition GET_json : RequestInit :=
  {| method := Some "GET";
     headers := Some [("Accept", "application/json")];
     body := None |}.

(** The request carries [Accept: application/json]. *)
Definition accepts_json (config : RequestInit) : bool :=
  bool_decide (header "Accept" (spread (headers config)) = Some "application/json").

(** An object has an own property of that name. *)
Definition has_prop (key : string) (props : list (string * value)) : Prop :=
  exists v, (key, v) ∈ props.

(** ** [localStorage] *)

Abbreviation Storage := (gmap string string).

Definition getItem (key : string) (ls : Storage) : option string := ls !! key.
Definition setItem (key data : string) (ls : Storage) : Storage := <[key := data]> ls.
Definition removeItem (key : string) (ls : Storage) : Storage := delete key ls.

(** ** ResultsPage.tsx: the component's state *)

Record PageState : Type := mkPageState {
  data : value;
  reportMd : value;
  aiMd : value;
  loading : bool;
  error : option string
}.

(** The state the [useState] calls start from. *)
Definition initial_state : PageState :=
  {| data := VNull; reportMd := VStr ""; aiMd := VStr "";
     loading := true; error := None |}.

Definition setData (v : value) (st : PageState) : PageState :=
  {| data := v; reportMd := reportMd st; aiMd := aiMd st;
     loading := loading st; error := error st |}.
Definition setReportMd (v : value) (st : PageState) : PageState :=
  {| data := data st; reportMd := v; aiMd := aiMd st;
     loading := loading st; error := error st |}.
Definition setAiMd (v : value) (st : PageState) : PageState :=
  {| data := data st; reportMd := reportMd st; aiMd := v;
     loading := loading st; error := error st |}.
Definition setLoading (b : bool) (st : PageState) : PageState :=
  {| data := data st; reportMd := reportMd st; aiMd := aiMd st;
     loading := b; error := error st |}.
Definition setError (m : string) (st : PageState) : PageState :=
  {| data := data st; reportMd := reportMd st; aiMd := aiMd st;
     loading := loading st; error := Some m |}.

(** What the component shows: the branch of its [return]s that is taken.
    The dashboard itself is not modelled beyond the result it is given. *)
Inductive Screen : Type :=
| Spinner
| ErrorBox (shown : string)
| NoData
| Dashboard (res : value).

(** What [handleDownloadReport] hands to the browser: the [Blob] and the
    [download] attribute of the link it clicks. *)
Record Download : Type := mkDownload {
  filename : string;
  blob : string;
  blob_type : string
}.

(** ** UploadPage.tsx: the component's state *)

Module Upload.

(** A [File] the user chose. *)
Record File : Type := mkFile {
  name : string;
  contents : string
}.

Record Files : Type := mkFiles {
  sales : option File;
  expenses : option File;
  ar : option File;
  ap : option File;
  loans : option File;
  inventory : option File
}.

(** [keyof typeof files]. *)
Inductive Field : Type :=
| Sales | Expenses | Ar | Ap | Loans | Inventory.

Record State : Type := mkState {
  loading : bool;
  error : option string;
  company : string;
  industry : string;
  lang : string;
  files : Files
}.

Definition no_files : Files :=
  {| sales := None; expenses := None; ar := None; ap := None;
     loans := None; inventory := None |}.

(** The state the [useState] calls start from. *)
Definition initial : State :=
  {| loading := false; error := None; company := ""; industry := "";
     lang := "en"; files := no_files |}.

Definition setLoading (b : bool) (st : State) : State :=
  {| loading := b; error := error st; company := company st;
     industry := industry st; lang := lang st; files := files st |}.
Definition setError (m : option string) (st : State) : State :=
  {| loading := loading st; error := m; company := company st;
     industry := industry st; lang := lang st; files := files st |}.
Definition setFiles (f : Files) (st : State) : State :=
  {| loading := loading st; error := error st; company := company st;
     industry := industry st; lang := lang st; files := f |}.

Definition file_of (field : Field) (f : Files) : option File :=
  match field with
  | Sales => sales f
  | Expenses => expenses f
  | Ar => ar f
  | Ap => ap f
  | Loans => loans f
  | Inventory => inventory f
  end.

(** [{...prev, [field]: file}]. *)
Definition with_file (field : Field) (file : File) (prev : Files) : Files :=
  match field with
  | Sales =>
      {| sales := Some file; expenses := expenses prev; ar := ar prev;
         ap := ap prev; loans := loans prev; inventory := inventory prev |}
  | Expenses =>
      {| sales := sales prev; expenses := Some file; ar := ar prev;
         ap := ap prev; loans := loans prev; inventory := inventory prev |}
  | Ar =>
      {| sales := sales prev; expenses := expenses prev; ar := Some file;
         ap := ap prev; loans := loans prev; inventory := inventory prev |}
  | Ap =>
      {| sales := sales prev; expenses := expenses prev; ar := ar prev;
         ap := Some file; loans := loans prev; inventory := inventory prev |}
  | Loans =>
      {| sales := sales prev; expenses := expenses prev; ar := ar prev;
         ap := ap prev; loans := Some file; inventory := inventory prev |}
  | Inventory =>
      {| sales := sales prev; expenses := expenses prev; ar := ar prev;
         ap := ap prev; loans := loans prev; inventory := Some file |}
  end.

(** The name a field's file is sent under. *)
Definition key (field : Field) : string :=
  match field with
  | Sales => "sales"
  | Expenses => "expenses"
  | Ar => "ar"
  | Ap => "ap"
  | Loans => "loans"
  | Inventory => "inventory"
  end.

(** [if (file) formData.append(key, file)]. *)
Definition append_file (key : string) (file : option File) : FormData :=
  match file with
  | Some f => [(key, FormFile (name f) (contents f))]
  | None => []
  end.

(** [handleFileChange(e, field)], with [e.target.files] as [chosen]: [None]
    for [null], and otherwise the files of the list. *)
Definition handleFileChange (chosen : option (list File)) (field : Field)
  (st : State) : State :=
  match chosen with
  | Some (file :: _) => setFiles (with_file field file (files st)) st
  | Some [] | None => st
  end.

(** The [FormData] that [handleSubmit] fills (lines 77-87). *)
Definition formData_of (st : State) : FormData :=
  ([("company", FormText (company st));
    ("industry", FormText (industry st));
    ("lang", FormText (lang st))]
   ++ append_file "sales" (sales (files st))
   ++ append_file "expenses" (expenses (files st))
   ++ append_file "ar" (ar (files st))
   ++ append_file "ap" (ap (files st))
   ++ append_file "loans" (loans (files st))
   ++ append_file "inventory" (inventory (files st)))%list.

End Upload.

Definition HISTORY_KEY : string := "sme_assessment_history".

(** ** A concrete back end

    Servers to run the sources against, with the reference codec: one that
    knows a single assessment, ["a1"], and answers everything else with a 404
    carrying a [detail]; and one that refuses any request that does not
    carry [Accept: application/json]. *)
Module Demo.

Definition base : string := "http://127.0.0.1:8000".

Definition json_response (code : Z) (reason : string) (payload : value) : Response :=
  {| status := code; statusText := reason;
     content_type := Some "application/json";
     text := RefJSON.stringify payload |}.

Definition record : value :=
  VObj [("id", VStr "a1"); ("company", VStr "Acme Traders");
        ("industry", VStr "retail"); ("lang", VStr "en");
        ("created_at", VStr "2024-05-01T10:00:00");
        ("result_json", VObj [("scores", VObj [("health_score", VNum 72)])])].

Definition record_summary : HistoryItem.t :=
  HistoryItem.mk "a1" "Acme Traders" "retail" "2024-05-01T10:00:00".

Definition not_found : Response :=
  json_response 404 "Not Found" (VObj [("detail", VStr "not found")]).


(** The report and the AI narrative of ["a1"] are answered as given. *)
Definition server (report ai : result Response)
  (url : string) (config : RequestInit) : result Response :=
  if String.eqb url (base +:+ "/api/health")
  then Ok (json_response 200 "OK" (VObj [("status", VStr "ok")]))
  else if String.eqb url (base +:+ "/api/assessments")
  then Ok (json_response 200 "OK" record)
  else if String.eqb url (base +:+ "/api/assessments/a1")
  then Ok (json_response 200 "OK" record)
  else if String.eqb url (base +:+ "/api/assessments/a1/report") then report
  else if String.eqb url (base +:+ "/api/assessments/a1/ai") then ai
  else Ok not_found.

Definition report_answer (md : string) : result Response :=
  Ok (json_response 200 "OK" (VObj [("id", VStr "a1"); ("report_md", VStr md)])).

Definition ai_answer (md : string) : result Response :=
  Ok (json_response 200 "OK" (VObj [("id", VStr "a1"); ("ai_md", VStr md)])).

(** A server that insists on [Accept: application/json]. *)
Definition strict_server (url : string) (config : RequestInit) : result Response :=
  if accepts_json config
  then server (report_answer "# Report") (ai_answer "Narrative") url config
  else Ok {| status := 406; statusText := "Not Acceptable";
             content_type := Some "text/plain"; text := "" |}.

(** A server that answers every request with the same response. *)
Definition constant_server (response : Response)
  (url : string) (config : RequestInit) : result Response := Ok response.

Definition good_server : string -> RequestInit -> result Response :=
  server (report_answer "# Report") (ai_answer "Narrative").


(** The report is there and is empty. *)
Definition empty_report_server : string -> RequestInit -> result Response :=
  server (report_answer "") (ai_answer "Narrative").

(** An envelope with neither [report_md] nor [ai_md]. *)
Definition bare_envelope : Response :=
  json_response 200 "OK" (VObj [("id", VStr "a1")]).

Definition empty_detail : Response :=
  json_response 400 "Bad Request" (VObj [("detail", VStr "")]).

(** A validation error as FastAPI reports it: [detail] is structured. *)
Definition validation_detail : value :=
  VArr [VObj [("loc", VArr [VStr "body"; VStr "sales"]);
              ("msg", VStr "field required")]].

Definition invalid_upload : Response :=
  json_response 422 "Unprocessable Entity" (VObj [("detail", validation_detail)]).

Definition bad_gateway : Response :=
  {| status := 502; statusText := "Bad Gateway";
     content_type := Some "text/html"; text := "<html>" |}.

Definition item_aX : HistoryItem.t := HistoryItem.mk "a" "X" "retail" "2024-01-01".
Definition item_aY : HistoryItem.t := HistoryItem.mk "a" "Y" "retail" "2024-01-02".
Definition item_b : HistoryItem.t := HistoryItem.mk "b" "Z" "services" "2023-12-31".

End Demo.

Section Platform.

(** [import.meta.env?.VITE_API_BASE_URL], [None] when it is not set. *)
Variable VITE_API_BASE_URL : option string.
(** [fetch(url, config)], settled: a network failure rejects, anything the
    server answers resolves to a [Response]. *)
Variable fetch : string -> RequestInit -> result Response.
(** [JSON.parse], which throws a [SyntaxError] on a text that is not JSON. *)
Variable JSON_parse : string -> result value.
(** [JSON.stringify] on the values the sources apply it to (an array, or a
    truthy value read from a parsed body), where it returns a string. *)
Variable JSON_stringify : value -> string.
(** [Number::toString] on an integer-valued number. *)
Variable Number_toString : Z -> string.

(** *** api/client.ts *)

Definition BASE_URL : string :=
  match VITE_API_BASE_URL with
  | Some url => if truthy (VStr url) then url else "http://127.0.0.1:8000"
  | None => "http://127.0.0.1:8000"
  end.

(** [response.json()]. *)
Definition json (response : Response) : result value := JSON_parse (text response).

(** Lines 24-34: the message of the error thrown for a response that is not
    [ok].  The inner [try] swallows whatever reading the body throws. *)
Definition errorMessage (response : Response) : string :=
  let fallback := status_message response in
  match errorData ← json response; get errorData "detail" with
  | Ok detail =>
      if truthy detail then
        match detail with
        | VStr s => s
        | _ => JSON_stringify detail
        end
      else fallback
  | Err _ => fallback
  end.

(** Lines 23-43: what [request] does with the response. *)
Definition settle (response : Response) : result value :=
  if negb (ok response) then Err (Error (errorMessage response))
  else
    match content_type response with
    | Some contentType =>
        if truthy (VStr contentType) && includes contentType "application/json"
        then json response
        else Ok (VStr (text response))
    | None => Ok (VStr (text response))
    end.

(** The outer [catch] logs and rethrows, so it does not show in the outcome. *)
Definition request (path : string) (options : RequestInit) : result value :=
  let url := BASE_URL +:+ path in
  let config := with_headers options in
  response ← fetch url config;
  settle response.

(** *** api/assessment.ts *)

Definition healthCheck : result value := request "/api/health" no_options.

Definition createAssessment (formData : FormData) : result value :=
  request "/api/assessments"
    {| method := Some "POST"; headers := None; body := Some formData |}.

Definition getAssessment (id : string) : result value :=
  request ("/api/assessments/" +:+ id)
    {| method := Some "GET";
       headers := Some [("Accept", "application/json")];
       body := None |}.

Definition getAssessmentReport (id : string) : result value :=
  response ← request ("/api/assessments/" +:+ id +:+ "/report")
    {| method := Some "GET";
       headers := Some [("Accept", "application/json")];
       body := None |};
  report_md ← get response "report_md";
  mret (or_else report_md (VStr "")).

Definition getAssessmentAI (id : string) : result value :=
  response ← request ("/api/assessments/" +:+ id +:+ "/ai")
    {| method := Some "GET";
       headers := Some [("Accept", "application/json")];
       body := None |};
  ai_md ← get response "ai_md";
  mret (or_else ai_md (VStr "")).

(** *** utils/history.ts *)

Definition getHistory (ls : Storage) : value :=
  let attempt :=
    match getItem HISTORY_KEY ls with
    | Some stored => if truthy (VStr stored) then JSON_parse stored else Ok (VArr [])
    | None => Ok (VArr [])
    end in
  match attempt with
  | Ok history => history
  | Err _ => VArr []
  end.

(** [current.filter(callback)]: only an array has the method. *)
Definition array_filter (callback : value -> result bool) (current : value)
  : result (list value) :=
  match current with
  | VArr elems => filter_result callback elems
  | VUndefined | VNull => Err (TypeError (cannot_read current "filter"))
  | VBool _ | VNum _ | VStr _ | VObj _ =>
      Err (TypeError "current.filter is not a function")
  end.

Definition addToHistory (item : value) (ls : Storage) : result Storage :=
  let current := getHistory ls in
  filtered ← array_filter
    (fun h => h_id ← get h "id"; item_id ← get item "id";
              mret (negb (strict_eq h_id item_id)))
    current;
  let updated := VArr (item :: filtered) in
  mret (setItem HISTORY_KEY (JSON_stringify updated) ls).

Definition clearHistory (ls : Storage) : Storage := removeItem HISTORY_KEY ls.

(** *** pages/ResultsPage.tsx *)

(** [promise.catch(err => '')]. *)
Definition catch_empty (outcome : result value) : value :=
  match outcome with
  | Ok v => v
  | Err _ => VStr ""
  end.

(** The object literal handed to [addToHistory] (lines 39-44). *)
Definition summary (assessment : value) : result value :=
  id ← get assessment "id";
  company ← get assessment "company";
  industry ← get assessment "industry";
  created_at ← get assessment "created_at";
  mret (VObj [("id", id); ("company", company);
              ("industry", industry); ("created_at", created_at)]).

(** [err.message || 'Failed to load assessment results.']. *)
Definition shown_message (err : exn) : string :=
  if truthy (VStr (message err)) then message err
  else "Failed to load assessment results.".

(** [fetchData] for the route parameter [id], from the component state [st]
    and the storage [ls].  The two optional fetches settle independently, so
    their order is immaterial. *)
Definition fetchData (id : string) (st : PageState) (ls : Storage)
  : PageState * Storage :=
  let '(st, ls, thrown) :=
    match getAssessment id with
    | Err err => (st, ls, Some err)
    | Ok assessment =>
        let report := catch_empty (getAssessmentReport id) in
        let ai := catch_empty (getAssessmentAI id) in
        let st := setAiMd ai (setReportMd report (setData assessment st)) in
        match item ← summary assessment; addToHistory item ls with
        | Ok ls' => (st, ls', None)
        | Err err => (st, ls, Some err)
        end
    end in
  let st :=
    match thrown with
    | Some err => setError (shown_message err) st
    | None => st
    end in
  (setLoading false st, ls).

(** [addToHistory] for each item in turn; the first exception ends the run. *)
Fixpoint addAllToHistory (items : list value) (ls : Storage) : result Storage :=
  match items with
  | [] => Ok ls
  | item :: rest => ls' ← addToHistory item ls; addAllToHistory rest ls'
  end.

(** The storages the history module produces by itself: one without a
    history, and whatever [addToHistory] and [clearHistory] make of those. *)
Inductive managed : Storage -> Prop :=
| managed_fresh (ls : Storage) :
    getItem HISTORY_KEY ls = None -> managed ls
| managed_add (ls ls' : Storage) (s : HistoryItem.t) :
    managed ls -> addToHistory (of_item s) ls = Ok ls' -> managed ls'
| managed_clear (ls : Storage) :
    managed ls -> managed (clearHistory ls).

(** The effect: nothing is fetched without a route parameter. *)
Definition useEffect (id : option string) (st : PageState) (ls : Storage)
  : PageState * Storage :=
  match id with
  | Some id => if truthy (VStr id) then fetchData id st ls else (st, ls)
  | None => (st, ls)
  end.

(** [String(v)], as a template literal converts: an array joins its
    elements with commas, [null] and [undefined] elements giving nothing; an
    object parsed from JSON is ["[object Object]"], unless it has an own
    [toString] property, which is no function and leaves nothing to
    convert with. *)
Fixpoint to_string (v : value) : result string :=
  match v with
  | VUndefined => Ok "undefined"
  | VNull => Ok "null"
  | VBool true => Ok "true"
  | VBool false => Ok "false"
  | VNum n => Ok (Number_toString n)
  | VStr s => Ok s
  | VArr elems =>
      (fix join (l : list value) : result string :=
         match l with
         | [] => Ok ""
         | e :: r =>
             first ← match e with
                     | VUndefined | VNull => Ok ""
                     | _ => to_string e
                     end;
             match r with
             | [] => Ok first
             | _ :: _ => rest ← join r; Ok (first +:+ "," +:+ rest)
             end
         end) elems
  | VObj props =>
      if existsb (fun kv => String.eqb kv.1 "toString") props
      then Err (TypeError "Cannot convert object to primitive value")
      else Ok "[object Object]"
  end.

(** *** pages/ResultsPage.tsx: what is shown and downloaded *)

(** Lines 85-87: without a record, or a [result_json] in it, there is
    nothing to show. *)
Definition results_view (st : PageState) : Screen :=
  if truthy (data st) && truthy (prop (data st) "result_json")
  then Dashboard (prop (data st) "result_json")
  else NoData.

(** The early [return]s of the component (lines 70-85). *)
Definition screen (st : PageState) : Screen :=
  if loading st then Spinner
  else
    match error st with
    | Some shown => if truthy (VStr shown) then ErrorBox shown else results_view st
    | None => results_view st
    end.

(** [handleDownloadReport]: [None] when it returns without a download. *)
Definition handleDownloadReport (st : PageState) : result (option Download) :=
  if negb (truthy (reportMd st)) then Ok None
  else
    part ← to_string (reportMd st);
    stem ← to_string (or_else (prop (data st) "company") (VStr "assessment"));
    mret (Some {| filename := stem +:+ "_report.md";
                  blob := part;
                  blob_type := "text/markdown" |}).

(** *** pages/HistoryPage.tsx *)

(** [handleClear], with the answer to [window.confirm]; [history] is the
    list the page shows. *)
Definition handleClear (confirmed : bool) (history : value) (ls : Storage)
  : value * Storage :=
  if confirmed then (VArr [], clearHistory ls) else (history, ls).

(** *** pages/UploadPage.tsx *)

(** [err.message || 'Failed to create assessment. Please try again.']. *)
Definition upload_message (err : exn) : string :=
  if truthy (VStr (message err)) then message err
  else "Failed to create assessment. Please try again.".

(** [handleSubmit] from the component state [st] and the storage [ls]; the
    third component is the route [navigate] is called with, if it is. *)
Definition handleSubmit (st : Upload.State) (ls : Storage)
  : Upload.State * Storage * option string :=
  let st := Upload.setError None st in
  if (units (trim (code_points (Upload.company st))) <? 2)%nat then
    (Upload.setError (Some "Company name must be at least 2 characters.") st,
     ls, None)
  else if negb (truthy (VStr (Upload.industry st))) then
    (Upload.setError (Some "Please select an industry.") st, ls, None)
  else
    match Upload.sales (Upload.files st), Upload.expenses (Upload.files st) with
    | Some _, Some _ =>
        let st := Upload.setLoading true st in
        let formData := Upload.formData_of st in
        let '(st, ls, route) :=
          match createAssessment formData with
          | Err err => (Upload.setError (Some (upload_message err)) st, ls, None)
          | Ok response =>
              match item ← summary response; addToHistory item ls with
              | Err err =>
                  (Upload.setError (Some (upload_message err)) st, ls, None)
              | Ok ls' =>
                  match id ← get response "id"; to_string id with
                  | Err err =>
                      (Upload.setError (Some (upload_message err)) st, ls', None)
                  | Ok id => (st, ls', Some ("/assessments/" +:+ id))
                  end
              end
          end in
        (Upload.setLoading false st, ls, route)
    | _, _ =>
        (Upload.setError (Some "Sales and Expenses files are required.") st,
         ls, None)
    end.

(** The form passes the three checks of [handleSubmit]. *)
Definition passes_validation (st : Upload.State) : Prop :=
  (units (trim (code_points (Upload.company st))) <? 2)%nat = false /\
  Upload.industry st <> "" /\
  (exists file, Upload.sales (Upload.files st) = Some file) /\
  (exists file, Upload.expenses (Upload.files st) = Some file).

(** ** Properties *)

(** *** Evaluation lemmas *)

Lemma result_bind_Ok {A B : Type} (f : A -> result B) (a : A) :
  (Ok a ≫= f) = f a.
Proof. reflexivity. Qed.

Lemma result_bind_Err {A B : Type} (f : A -> result B) (e : exn) :
  (Err e ≫= f) = Err e.
Proof. reflexivity. Qed.

Lemma prefix_refl (s : string) : String.prefix s s = true.
Proof.
  induction s as [|c s IH]; simpl; [reflexivity|].
  destruct (ascii_dec c c) as [_|Hne]; [exact IH|congruence].
Qed.

Lemma includes_refl (s : string) : includes s s = true.
Proof.
  destruct s as [|c s]; [reflexivity|].
  change (includes (String c s) (String c s))
    with (String.prefix (String c s) (String c s) || includes s (String c s)).
  now rewrite prefix_refl.
Qed.

Lemma truthy_VStr (s : string) : truthy (VStr s) = true <-> s <> "".
Proof.
  simpl. destruct (String.eqb_spec s ""); simpl; split; congruence.
Qed.

Lemma truthy_VStr_false (s : string) : truthy (VStr s) = false <-> s = "".
Proof.
  simpl. destruct (String.eqb_spec s ""); simpl; split; congruence.
Qed.

Lemma request_fetched (path : string) (options : RequestInit) (response : Response) :
  fetch (BASE_URL +:+ path) (with_headers options) = Ok response ->
  request path options = settle response.
Proof. intros Hfetch. unfold request. now rewrite Hfetch. Qed.

Lemma request_rejected (path : string) (options : RequestInit) (e : exn) :
  fetch (BASE_URL +:+ path) (with_headers options) = Err e ->
  request path options = Err e.
Proof. intros Hfetch. unfold request. now rewrite Hfetch. Qed.

Lemma settle_not_ok (response : Response) :
  ok response = false -> settle response = Err (Error (errorMessage response)).
Proof. intros Hok. unfold settle. now rewrite Hok. Qed.

Lemma errorMessage_object (response : Response) (props : list (string * value)) :
  JSON_parse (text response) = Ok (VObj props) ->
  errorMessage response =
    let detail := lookup_prop "detail" props in
    if truthy detail
    then match detail with VStr s => s | _ => JSON_stringify detail end
    else status_message response.
Proof. intros Hparse. unfold errorMessage, json. now rewrite Hparse. Qed.

Lemma errorMessage_not_object (response : Response) :
  (forall props, JSON_parse (text response) <> Ok (VObj props)) ->
  errorMessage response = status_message response.
Proof.
  intros Hno. unfold errorMessage, json.
  destruct (JSON_parse (text response)) as [v|e]; [|reflexivity].
  destruct v; simpl; try reflexivity.
  now destruct (Hno props).
Qed.

Lemma lookup_prop_absent (key : string) (props : list (string * value)) :
  ~ has_prop key props -> lookup_prop key props = VUndefined.
Proof.
  induction props as [|[k v] props IH]; intros Habs; simpl; [reflexivity|].
  destruct (String.eqb_spec k key) as [->|Hne].
  - exfalso. apply Habs. exists v. left.
  - apply IH. intros [w Hw]. apply Habs. exists w. now right.
Qed.

(** *** The HTTP client *)

(** C4, as amended: a response whose status is not in 200-299 makes [request]
    throw an [Error], never return.  Its message is the [detail] property of
    the body when the body is a JSON object whose [detail] is truthy (a
    non-empty string as it is, another truthy value through
    [JSON.stringify]); it is ["Error <status>: <statusText>"] when [detail]
    is missing or falsy (the empty string, [0], [false], [null]), when the
    body is JSON but no object, and when the body is not JSON. *)
Theorem request_error_message
  (path : string) (options : RequestInit) (response : Response) :
  fetch (BASE_URL +:+ path) (with_headers options) = Ok response ->
  ok response = false ->
  exists msg,
    request path options = Err (Error msg) /\
    (forall props s,
       JSON_parse (text response) = Ok (VObj props) ->
       lookup_prop "detail" props = VStr s -> s <> "" -> msg = s) /\
    (forall props,
       JSON_parse (text response) = Ok (VObj props) ->
       truthy (lookup_prop "detail" props) = true ->
       (forall s, lookup_prop "detail" props <> VStr s) ->
       msg = JSON_stringify (lookup_prop "detail" props)) /\
    (forall props,
       JSON_parse (text response) = Ok (VObj props) ->
       truthy (lookup_prop "detail" props) = false ->
       msg = status_message response) /\
    ((forall props, JSON_parse (text response) <> Ok (VObj props)) ->
     msg = status_message response).
Proof.
  intros Hfetch Hok. exists (errorMessage response).
  split; [|repeat split].
  - rewrite (request_fetched _ _ _ Hfetch). now apply settle_not_ok.
  - intros props s Hparse Hdetail Hs.
    rewrite (errorMessage_object _ _ Hparse). cbv zeta. rewrite Hdetail.
    now rewrite (proj2 (truthy_VStr s) Hs).
  - intros props Hparse Htruthy Hnostr.
    rewrite (errorMessage_object _ _ Hparse). cbv zeta. rewrite Htruthy.
    destruct (lookup_prop "detail" props) as [| | | |s| |] eqn:E; try reflexivity.
    now destruct (Hnostr s).
  - intros props Hparse Hfalsy.
    rewrite (errorMessage_object _ _ Hparse). cbv zeta. now rewrite Hfalsy.
  - apply errorMessage_not_object.
Qed.

(** *** The gateway *)

Lemma text_field (key : string) (envelope field : value) :
  get envelope key = Ok field ->
  (report_md ← get envelope key; mret (or_else report_md (VStr ""))) =
  Ok (if truthy field then field else VStr "").
Proof. intros Hget. now rewrite Hget. Qed.

(** C8: when the envelope the server answers is an object,
    [getAssessmentReport] and [getAssessmentAI] return the empty string if
    its [report_md] / [ai_md] property is absent or is the empty string (no
    error is thrown), and return the property unchanged if it is a non-empty
    string. *)
Theorem text_fetch_normalises_missing_field
  (id : string) (response : Response) (props : list (string * value)) :
  settle response = Ok (VObj props) ->
  (fetch (BASE_URL +:+ "/api/assessments/" +:+ id +:+ "/report") GET_json
     = Ok response ->
   (~ has_prop "report_md" props -> getAssessmentReport id = Ok (VStr "")) /\
   (lookup_prop "report_md" props = VStr "" ->
    getAssessmentReport id = Ok (VStr "")) /\
   (forall s, lookup_prop "report_md" props = VStr s -> s <> "" ->
    getAssessmentReport id = Ok (VStr s))) /\
  (fetch (BASE_URL +:+ "/api/assessments/" +:+ id +:+ "/ai") GET_json
     = Ok response ->
   (~ has_prop "ai_md" props -> getAssessmentAI id = Ok (VStr "")) /\
   (lookup_prop "ai_md" props = VStr "" -> getAssessmentAI id = Ok (VStr "")) /\
   (forall s, lookup_prop "ai_md" props = VStr s -> s <> "" ->
    getAssessmentAI id = Ok (VStr s))).
Proof.
  intros Hsettle. split; intros Hfetch.
  - assert (Hreq : forall field, lookup_prop "report_md" props = field ->
              getAssessmentReport id = Ok (if truthy field then field else VStr "")).
    { intros field Hfield. unfold getAssessmentReport.
      erewrite request_fetched by exact Hfetch. rewrite Hsettle.
      rewrite result_bind_Ok. apply text_field. simpl. now rewrite Hfield. }
    repeat split.
    + intros Habs. now rewrite (Hreq _ (lookup_prop_absent _ _ Habs)).
    + intros Hempty. now rewrite (Hreq _ Hempty).
    + intros s Hs Hne. rewrite (Hreq _ Hs).
      now rewrite (proj2 (truthy_VStr s) Hne).
  - assert (Hreq : forall field, lookup_prop "ai_md" props = field ->
              getAssessmentAI id = Ok (if truthy field then field else VStr "")).
    { intros field Hfield. unfold getAssessmentAI.
      erewrite request_fetched by exact Hfetch. rewrite Hsettle.
      rewrite result_bind_Ok. apply text_field. simpl. now rewrite Hfield. }
    repeat split.
    + intros Habs. now rewrite (Hreq _ (lookup_prop_absent _ _ Habs)).
    + intros Hempty. now rewrite (Hreq _ Hempty).
    + intros s Hs Hne. rewrite (Hreq _ Hs).
      now rewrite (proj2 (truthy_VStr s) Hne).
Qed.

(** C9, as amended: [getAssessment], [getAssessmentReport] and
    [getAssessmentAI] each issue one [GET] request whose headers are exactly
    [Accept: application/json]; [healthCheck] and [createAssessment] issue
    their request with an empty header record, so without an [Accept]
    header. *)
Theorem gateway_request_headers (id : string) (formData : FormData) :
  accepts_json GET_json = true /\
  getAssessment id =
    (fetch (BASE_URL +:+ "/api/assessments/" +:+ id) GET_json ≫= settle) /\
  getAssessmentReport id =
    (envelope ← fetch (BASE_URL +:+ "/api/assessments/" +:+ id +:+ "/report")
                  GET_json ≫= settle;
     report_md ← get envelope "report_md";
     mret (or_else report_md (VStr ""))) /\
  getAssessmentAI id =
    (envelope ← fetch (BASE_URL +:+ "/api/assessments/" +:+ id +:+ "/ai")
                  GET_json ≫= settle;
     ai_md ← get envelope "ai_md";
     mret (or_else ai_md (VStr ""))) /\
  healthCheck =
    (fetch (BASE_URL +:+ "/api/health") (with_headers no_options) ≫= settle) /\
  headers (with_headers no_options) = Some [] /\
  accepts_json (with_headers no_options) = false /\
  (let config :=
     with_headers
       {| method := Some "POST"; headers := None; body := Some formData |} in
   createAssessment formData =
     (fetch (BASE_URL +:+ "/api/assessments") config ≫= settle) /\
   headers config = Some [] /\ accepts_json config = false).
Proof.
  assert (Hget : with_headers GET_json = GET_json) by reflexivity.
  split; [reflexivity|].
  split; [unfold getAssessment, request; now rewrite <- Hget|].
  split; [unfold getAssessmentReport, request; now rewrite <- Hget|].
  split; [unfold getAssessmentAI, request; now rewrite <- Hget|].
  split; [reflexivity|].
  split; [reflexivity|].
  split; [reflexivity|].
  cbv zeta. now repeat split.
Qed.

(** *** The history store: reading *)

Lemma getHistory_absent (ls : Storage) :
  getItem HISTORY_KEY ls = None -> getHistory ls = VArr [].
Proof. intros Habs. unfold getHistory. now rewrite Habs. Qed.

Lemma getHistory_corrupt (ls : Storage) (stored : string) (e : exn) :
  getItem HISTORY_KEY ls = Some stored -> JSON_parse stored = Err e ->
  getHistory ls = VArr [].
Proof.
  intros Hstored Hparse. unfold getHistory. rewrite Hstored.
  destruct (truthy (VStr stored)); [now rewrite Hparse|reflexivity].
Qed.

Lemma getHistory_parsed (ls : Storage) (stored : string) (v : value) :
  getItem HISTORY_KEY ls = Some stored -> stored <> "" ->
  JSON_parse stored = Ok v -> getHistory ls = v.
Proof.
  intros Hstored Hne Hparse. unfold getHistory. rewrite Hstored.
  now rewrite (proj2 (truthy_VStr stored) Hne), Hparse.
Qed.

(** C10: [getHistory] does not validate what it parses.  Whatever non-empty
    text is stored under the history key and parses as JSON is returned as
    parsed; when that value is not an array (["42"], an object) the result is
    neither the empty list nor any history list. *)
Theorem getHistory_returns_any_parsed_value
  (ls : Storage) (stored : string) (v : value) :
  getItem HISTORY_KEY ls = Some stored -> stored <> "" ->
  JSON_parse stored = Ok v ->
  getHistory ls = v /\
  ((forall elems, v <> VArr elems) ->
   getHistory ls <> VArr [] /\ forall l, getHistory ls <> of_history l).
Proof.
  intros Hstored Hne Hparse.
  rewrite (getHistory_parsed _ _ _ Hstored Hne Hparse).
  split; [reflexivity|]. intros Hshape. split.
  - apply Hshape.
  - intros l. apply Hshape.
Qed.

(** *** The history store: lists of summaries *)

Lemma ids_filter_subset (P : HistoryItem.t -> Prop) `{!forall h, Decision (P h)}
  (l : list HistoryItem.t) (i : string) :
  i ∈ HistoryItem.id <$> filter P l -> i ∈ HistoryItem.id <$> l.
Proof.
  rewrite !list_elem_of_fmap. intros (h & -> & Hin).
  apply list_elem_of_filter in Hin as [_ Hin]. now exists h.
Qed.

Lemma NoDup_ids_filter (P : HistoryItem.t -> Prop) `{!forall h, Decision (P h)}
  (l : list HistoryItem.t) :
  NoDup (HistoryItem.id <$> l) -> NoDup (HistoryItem.id <$> filter P l).
Proof.
  induction l as [|h l IH]; [intros; constructor|].
  rewrite fmap_cons, NoDup_cons. intros [Hnotin Hnodup].
  rewrite filter_cons. destruct (decide (P h)); [|now apply IH].
  rewrite fmap_cons, NoDup_cons. split; [|now apply IH].
  intros Hin. apply Hnotin. eapply ids_filter_subset, Hin.
Qed.

Lemma id_not_in_filter (i : string) (l : list HistoryItem.t) :
  i ∉ HistoryItem.id <$> filter (fun h => HistoryItem.id h <> i) l.
Proof.
  rewrite list_elem_of_fmap. intros (h & -> & Hin).
  apply list_elem_of_filter in Hin as [Hne _]. now apply Hne.
Qed.

Lemma inserted_NoDup (s : HistoryItem.t) (l : list HistoryItem.t) :
  NoDup (HistoryItem.id <$> l) -> NoDup (HistoryItem.id <$> inserted s l).
Proof.
  intros Hnodup. unfold inserted. rewrite fmap_cons, NoDup_cons. split.
  - apply id_not_in_filter.
  - now apply NoDup_ids_filter.
Qed.

Lemma inserted_once (s : HistoryItem.t) (l : list HistoryItem.t) :
  filter (fun h => HistoryItem.id h = HistoryItem.id s) (inserted s l) = [s].
Proof.
  unfold inserted. rewrite filter_cons_True by reflexivity. f_equal.
  induction l as [|h l IH]; [reflexivity|].
  rewrite filter_cons. destruct (decide (HistoryItem.id h <> HistoryItem.id s)) as [Hne|_].
  - now rewrite filter_cons_False.
  - exact IH.
Qed.

Lemma inserted_fresh (s : HistoryItem.t) (l : list HistoryItem.t) :
  HistoryItem.id s ∉ HistoryItem.id <$> l -> inserted s l = s :: l.
Proof.
  intros Hfresh. unfold inserted. f_equal.
  induction l as [|h l IH]; [reflexivity|].
  rewrite fmap_cons, not_elem_of_cons in Hfresh. destruct Hfresh as [Hne Hfresh].
  rewrite filter_cons_True by congruence. f_equal. now apply IH.
Qed.

Lemma inserted_twice (s1 s2 : HistoryItem.t) (l : list HistoryItem.t) :
  HistoryItem.id s1 = HistoryItem.id s2 ->
  inserted s2 (inserted s1 l) = inserted s2 l.
Proof.
  intros Hid. unfold inserted. f_equal.
  rewrite filter_cons_False by (intros Hne; now apply Hne).
  rewrite Hid. induction l as [|h l IH]; [reflexivity|].
  rewrite filter_cons.
  destruct (decide (HistoryItem.id h <> HistoryItem.id s2)) as [Hne|Heq].
  - rewrite filter_cons_True by exact Hne. now rewrite IH.
  - exact IH.
Qed.

(** *** The history store: writing *)

Lemma filter_result_items (item : value) (i : string) (l : list HistoryItem.t) :
  get item "id" = Ok (VStr i) ->
  filter_result
    (fun h => h_id ← get h "id"; item_id ← get item "id";
              mret (negb (strict_eq h_id item_id)))
    (of_item <$> l)
  = Ok (of_item <$> filter (fun h => HistoryItem.id h <> i) l).
Proof.
  intros Hitem. induction l as [|h l IH]; [reflexivity|].
  rewrite fmap_cons. cbn [filter_result]. rewrite IH, Hitem.
  change (get (of_item h) "id") with (Ok (VStr (HistoryItem.id h))).
  rewrite !result_bind_Ok. cbn [strict_eq]. rewrite filter_cons.
  destruct (String.eqb_spec (HistoryItem.id h) i) as [Heq|Hne].
  - destruct (decide (HistoryItem.id h <> i)); [contradiction|reflexivity].
  - destruct (decide (HistoryItem.id h <> i)); [reflexivity|contradiction].
Qed.

Lemma addToHistory_items (s : HistoryItem.t) (l : list HistoryItem.t) (ls : Storage) :
  getHistory ls = of_history l ->
  addToHistory (of_item s) ls =
  Ok (setItem HISTORY_KEY (JSON_stringify (of_history (inserted s l))) ls).
Proof.
  intros Hread. unfold addToHistory. rewrite Hread. unfold of_history, array_filter.
  now rewrite (filter_result_items _ (HistoryItem.id s)).
Qed.

(** *** Beyond the stated properties: the client and the gateway *)

Lemma settle_ok (response : Response) :
  ok response = true ->
  settle response =
  match content_type response with
  | Some contentType =>
      if includes contentType "application/json"
      then json response
      else Ok (VStr (text response))
  | None => Ok (VStr (text response))
  end.
Proof.
  intros Hok. unfold settle. rewrite Hok. cbn [negb].
  destruct (content_type response) as [ct|]; [|reflexivity].
  destruct (includes ct "application/json") eqn:Hinc.
  - destruct ct as [|c ct]; [discriminate Hinc|reflexivity].
  - now rewrite andb_false_r.
Qed.

(** X1: a response with a status in 200-299 is parsed as JSON exactly when
    its content type mentions [application/json]: then [request] returns
    what [JSON.parse] makes of the body, and rejects with the parser's error
    when the body is no JSON (it does not fall back to the text).  With any
    other content type, or none, [request] returns the body as a string,
    unparsed. *)
Theorem request_success
  (path : string) (options : RequestInit) (response : Response) :
  fetch (BASE_URL +:+ path) (with_headers options) = Ok response ->
  ok response = true ->
  (content_type response = None ->
   request path options = Ok (VStr (text response))) /\
  (forall ct, content_type response = Some ct ->
     includes ct "application/json" = false ->
     request path options = Ok (VStr (text response))) /\
  (forall ct, content_type response = Some ct ->
     includes ct "application/json" = true ->
     request path options = JSON_parse (text response) /\
     (forall e, JSON_parse (text response) = Err e ->
        request path options = Err e)).
Proof.
  intros Hfetch Hok.
  rewrite (request_fetched _ _ _ Hfetch), (settle_ok _ Hok).
  split; [|split].
  - intros Hnone. now rewrite Hnone.
  - intros ct Hct Hinc. now rewrite Hct, Hinc.
  - intros ct Hct Hinc. rewrite Hct, Hinc. split; [reflexivity|].
    intros e He. exact He.
Qed.

(** X2: when [fetch] rejects (the network is down), each of the five gateway
    operations rejects with that very error: nothing is retried, wrapped or
    replaced. *)
Theorem gateway_network_failure (e : exn) (id : string) (formData : FormData) :
  (forall url config, fetch url config = Err e) ->
  healthCheck = Err e /\
  createAssessment formData = Err e /\
  getAssessment id = Err e /\
  getAssessmentReport id = Err e /\
  getAssessmentAI id = Err e.
Proof.
  intros Hdown.
  assert (Hreq : forall path options, request path options = Err e).
  { intros path options. apply request_rejected, Hdown. }
  unfold healthCheck, createAssessment, getAssessment, getAssessmentReport,
    getAssessmentAI.
  now rewrite !Hreq.
Qed.

(** X3: a report or an AI narrative that the server sends as plain text (a
    2xx answer whose content type does not mention [application/json]) is
    lost: [request] returns the text, which has no [report_md] / [ai_md]
    property, so the gateway returns the empty string whatever the body. *)
Theorem plain_text_report_is_dropped (id : string) (response : Response) :
  ok response = true ->
  (forall ct, content_type response = Some ct ->
     includes ct "application/json" = false) ->
  (fetch (BASE_URL +:+ "/api/assessments/" +:+ id +:+ "/report") GET_json
     = Ok response ->
   getAssessmentReport id = Ok (VStr "")) /\
  (fetch (BASE_URL +:+ "/api/assessments/" +:+ id +:+ "/ai") GET_json
     = Ok response ->
   getAssessmentAI id = Ok (VStr "")).
Proof.
  intros Hok Hplain.
  assert (Hsettle : settle response = Ok (VStr (text response))).
  { rewrite (settle_ok _ Hok).
    destruct (content_type response) as [ct|] eqn:Hct; [|reflexivity].
    now rewrite (Hplain ct eq_refl). }
  split; intros Hfetch.
  - unfold getAssessmentReport. erewrite request_fetched by exact Hfetch.
    now rewrite Hsettle.
  - unfold getAssessmentAI. erewrite request_fetched by exact Hfetch.
    now rewrite Hsettle.
Qed.

(** *** Beyond the stated properties: the history store *)

(** X4: [clearHistory] forgets the history whatever was stored, also a text
    that does not parse or is no list: [getHistory] then returns the empty
    list.  It removes that one key only, and clearing twice is clearing
    once. *)
Theorem clearHistory_forgets (ls : Storage) :
  getHistory (clearHistory ls) = VArr [] /\
  getItem HISTORY_KEY (clearHistory ls) = None /\
  (forall key, key <> HISTORY_KEY ->
     getItem key (clearHistory ls) = getItem key ls) /\
  clearHistory (clearHistory ls) = clearHistory ls.
Proof.
  assert (Hgone : getItem HISTORY_KEY (clearHistory ls) = None).
  { unfold getItem, clearHistory, removeItem. apply lookup_delete_eq. }
  split; [now apply getHistory_absent|]. split; [exact Hgone|]. split.
  - intros key Hkey. unfold getItem, clearHistory, removeItem.
    apply lookup_delete_ne. congruence.
  - unfold clearHistory, removeItem. apply delete_delete_eq.
Qed.

(** X5: [addToHistory] writes the history key and nothing else: when it
    succeeds, the key holds a text afterwards and every other key of the
    storage is as before. *)
Theorem addToHistory_writes_one_key (item : value) (ls ls' : Storage) :
  addToHistory item ls = Ok ls' ->
  (exists written, getItem HISTORY_KEY ls' = Some written) /\
  (forall key, key <> HISTORY_KEY -> getItem key ls' = getItem key ls).
Proof.
  unfold addToHistory. intros Hadd.
  destruct (array_filter _ (getHistory ls)) as [filtered|e]; [|discriminate].
  injection Hadd as <-. unfold getItem, setItem. split.
  - eexists. apply lookup_insert_eq.
  - intros key Hkey. apply lookup_insert_ne. congruence.
Qed.

Lemma get_error (v : value) (key : string) (e : exn) :
  get v key = Err e -> exists m, e = TypeError m.
Proof. destruct v; cbn; intros H; inversion H; eauto. Qed.

Lemma filter_result_nullish (item : value) (elems : list value) :
  VNull ∈ elems \/ VUndefined ∈ elems ->
  exists m,
    filter_result
      (fun h => h_id ← get h "id"; item_id ← get item "id";
                mret (negb (strict_eq h_id item_id)))
      elems
    = Err (TypeError m).
Proof.
  induction elems as [|h elems IH]; intros Hin.
  - destruct Hin as [Hin|Hin]; now apply not_elem_of_nil in Hin.
  - cbn [filter_result].
    destruct (get h "id") as [h_id|e] eqn:Hh.
    + rewrite result_bind_Ok.
      destruct (get item "id") as [item_id|e] eqn:Hitem.
      * rewrite !result_bind_Ok.
        destruct IH as [m Hm].
        { destruct Hin as [Hin|Hin]; apply elem_of_cons in Hin as [Heq|Hin].
          - subst h. cbn in Hh. discriminate Hh.
          - now left.
          - subst h. cbn in Hh. discriminate Hh.
          - now right. }
        rewrite Hm. eauto.
      * destruct (get_error _ _ _ Hitem) as [m ->]. eauto.
    + destruct (get_error _ _ _ Hh) as [m ->]. eauto.
Qed.

Lemma array_filter_not_array (callback : value -> result bool) (current : value) :
  (forall elems, current <> VArr elems) ->
  exists m, array_filter callback current = Err (TypeError m).
Proof.
  intros Hshape. destruct current; cbn; eauto. now destruct (Hshape elems).
Qed.

Lemma addToHistory_unusable (item : value) (ls : Storage) :
  (forall elems, getHistory ls <> VArr elems) \/
  (exists elems, getHistory ls = VArr elems /\
                 (VNull ∈ elems \/ VUndefined ∈ elems)) ->
  exists m, addToHistory item ls = Err (TypeError m).
Proof.
  intros [Hshape|(elems & Hread & Hin)]; unfold addToHistory.
  - destruct (array_filter_not_array
                (fun h => h_id ← get h "id"; item_id ← get item "id";
                          mret (negb (strict_eq h_id item_id)))
                _ Hshape) as [m Hm].
    rewrite Hm. eauto.
  - rewrite Hread. cbn [array_filter].
    destruct (filter_result_nullish item elems Hin) as [m Hm].
    rewrite Hm. eauto.
Qed.

(** X6: a stored history that parses to something that is no array, or to an
    array with a [null] in it, cannot be added to: [addToHistory] throws a
    [TypeError] for every item, writes nothing, and so does every run of
    insertions. *)
Theorem addToHistory_unusable_history
  (item : value) (rest : list value) (ls : Storage) :
  (forall elems, getHistory ls <> VArr elems) \/
  (exists elems, getHistory ls = VArr elems /\
                 (VNull ∈ elems \/ VUndefined ∈ elems)) ->
  exists m,
    addToHistory item ls = Err (TypeError m) /\
    addAllToHistory (item :: rest) ls = Err (TypeError m).
Proof.
  intros Hbad. destruct (addToHistory_unusable item ls Hbad) as [m Hm].
  exists m. split; [exact Hm|]. cbn [addAllToHistory]. now rewrite Hm.
Qed.

(** *** Beyond the stated properties: the results page *)

(** Reads the fields of a component state through the setters. *)
Ltac page_state :=
  cbn [fst snd data reportMd aiMd loading error
       setData setReportMd setAiMd setLoading setError].

Lemma shown_message_truthy (err : exn) : truthy (VStr (shown_message err)) = true.
Proof.
  unfold shown_message.
  destruct (truthy (VStr (message err))) eqn:Hm; [exact Hm|reflexivity].
Qed.

Lemma fetchData_failed (id : string) (st : PageState) (ls : Storage) (err : exn) :
  getAssessment id = Err err ->
  fetchData id st ls = (setLoading false (setError (shown_message err) st), ls).
Proof. intros Hget. unfold fetchData. now rewrite Hget. Qed.

Lemma fetchData_done
  (id : string) (st : PageState) (ls ls' : Storage) (assessment : value) :
  getAssessment id = Ok assessment ->
  (item ← summary assessment; addToHistory item ls) = Ok ls' ->
  fetchData id st ls =
  (setLoading false
     (setAiMd (catch_empty (getAssessmentAI id))
        (setReportMd (catch_empty (getAssessmentReport id))
           (setData assessment st))),
   ls').
Proof. intros Hget Hadd. unfold fetchData. now rewrite Hget, Hadd. Qed.

Lemma fetchData_not_recorded
  (id : string) (st : PageState) (ls : Storage) (assessment : value) (err : exn) :
  getAssessment id = Ok assessment ->
  (item ← summary assessment; addToHistory item ls) = Err err ->
  fetchData id st ls =
  (setLoading false
     (setError (shown_message err)
        (setAiMd (catch_empty (getAssessmentAI id))
           (setReportMd (catch_empty (getAssessmentReport id))
              (setData assessment st)))),
   ls).
Proof. intros Hget Hadd. unfold fetchData. now rewrite Hget, Hadd. Qed.

(** X7: what the results page shows once [fetchData] has run, from a state
    without an error.  It is never the spinner.  It is the error box, with a
    message that is not empty, when [getAssessment] fails, and also when the
    record arrived but could not be put into the history: the record is
    then loaded and hidden behind the error, and the storage is untouched.
    Otherwise it is the dashboard for the record's [result_json], or
    "No data found" when the record is falsy or has no truthy
    [result_json]. *)
Theorem screen_after_fetchData (id : string) (st : PageState) (ls : Storage) :
  error st = None ->
  screen (fetchData id st ls).1 <> Spinner /\
  (forall err, getAssessment id = Err err ->
     screen (fetchData id st ls).1 = ErrorBox (shown_message err) /\
     shown_message err <> "") /\
  (forall assessment err,
     getAssessment id = Ok assessment ->
     (item ← summary assessment; addToHistory item ls) = Err err ->
     screen (fetchData id st ls).1 = ErrorBox (shown_message err) /\
     data (fetchData id st ls).1 = assessment /\
     (fetchData id st ls).2 = ls) /\
  (forall assessment ls',
     getAssessment id = Ok assessment ->
     (item ← summary assessment; addToHistory item ls) = Ok ls' ->
     screen (fetchData id st ls).1 =
       if truthy assessment && truthy (prop assessment "result_json")
       then Dashboard (prop assessment "result_json")
       else NoData).
Proof.
  intros Hclean. split; [|split; [|split]].
  - unfold fetchData.
    destruct (getAssessment id) as [assessment|err].
    + destruct (item ← summary assessment; addToHistory item ls) as [ls'|err];
        unfold screen; page_state.
      * rewrite Hclean. unfold results_view.
        now destruct (truthy _ && truthy _).
      * now rewrite shown_message_truthy.
    + unfold screen. page_state. now rewrite shown_message_truthy.
  - intros err Hget. rewrite (fetchData_failed _ _ _ _ Hget).
    unfold screen. page_state. rewrite shown_message_truthy.
    split; [reflexivity|]. apply truthy_VStr, shown_message_truthy.
  - intros assessment err Hget Hadd.
    rewrite (fetchData_not_recorded _ _ _ _ _ Hget Hadd).
    unfold screen. page_state. now rewrite shown_message_truthy.
  - intros assessment ls' Hget Hadd. rewrite (fetchData_done _ _ _ _ _ Hget Hadd).
    unfold screen, results_view. page_state. now rewrite Hclean.
Qed.

(** X8: [fetchData] never clears an error.  A state that carries an error
    message still carries one afterwards, and when the fetch succeeds and is
    recorded the old, non-empty message is what the page goes on showing,
    in place of the record just loaded. *)
Theorem fetchData_keeps_old_error
  (id : string) (st : PageState) (ls : Storage) (old : string) :
  error st = Some old ->
  error (fetchData id st ls).1 <> None /\
  (forall assessment ls',
     getAssessment id = Ok assessment ->
     (item ← summary assessment; addToHistory item ls) = Ok ls' ->
     error (fetchData id st ls).1 = Some old /\
     data (fetchData id st ls).1 = assessment /\
     (old <> "" -> screen (fetchData id st ls).1 = ErrorBox old)).
Proof.
  intros Hold. split.
  - unfold fetchData.
    destruct (getAssessment id) as [assessment|err]; [|discriminate].
    destruct (item ← summary assessment; addToHistory item ls) as [ls'|err];
      page_state; [now rewrite Hold|discriminate].
  - intros assessment ls' Hget Hadd. rewrite (fetchData_done _ _ _ _ _ Hget Hadd).
    page_state. split; [exact Hold|]. split; [reflexivity|].
    intros Hne. unfold screen. page_state. rewrite Hold.
    now rewrite (proj2 (truthy_VStr old) Hne).
Qed.

(** X9: a stored history that is no array (or holds a [null]) turns a
    successful fetch into an error: the record and both texts are set, the
    page shows the error box with the [TypeError]'s message, and the history
    is not written. *)
Theorem fetchData_unusable_history
  (id : string) (st : PageState) (ls : Storage) (assessment item : value) :
  getAssessment id = Ok assessment ->
  summary assessment = Ok item ->
  (forall elems, getHistory ls <> VArr elems) \/
  (exists elems, getHistory ls = VArr elems /\
                 (VNull ∈ elems \/ VUndefined ∈ elems)) ->
  exists m,
    addToHistory item ls = Err (TypeError m) /\
    screen (fetchData id st ls).1 = ErrorBox (shown_message (TypeError m)) /\
    data (fetchData id st ls).1 = assessment /\
    reportMd (fetchData id st ls).1 = catch_empty (getAssessmentReport id) /\
    aiMd (fetchData id st ls).1 = catch_empty (getAssessmentAI id) /\
    (fetchData id st ls).2 = ls.
Proof.
  intros Hget Hsummary Hbad.
  destruct (addToHistory_unusable item ls Hbad) as [m Hm]. exists m.
  split; [exact Hm|].
  assert (Hadd : (item ← summary assessment; addToHistory item ls)
                 = Err (TypeError m)) by now rewrite Hsummary.
  rewrite (fetchData_not_recorded _ _ _ _ _ Hget Hadd).
  unfold screen. page_state. now rewrite shown_message_truthy.
Qed.

Section Codec.

(** Reading back what [JSON.stringify] wrote for a list of summaries gives
    the list, and the empty text is not JSON. *)
Hypothesis parse_stringify : forall l : list HistoryItem.t,
  JSON_parse (JSON_stringify (of_history l)) = Ok (of_history l).
Hypothesis parse_empty : forall v : value, JSON_parse "" <> Ok v.

Lemma stringify_history_nonempty (l : list HistoryItem.t) :
  JSON_stringify (of_history l) <> "".
Proof.
  intros Hempty. apply (parse_empty (of_history l)).
  rewrite <- Hempty. apply parse_stringify.
Qed.

Lemma getHistory_setItem (l : list HistoryItem.t) (ls : Storage) :
  getHistory (setItem HISTORY_KEY (JSON_stringify (of_history l)) ls)
  = of_history l.
Proof.
  apply getHistory_parsed with (stored := JSON_stringify (of_history l)).
  - unfold getItem, setItem. apply lookup_insert_eq.
  - apply stringify_history_nonempty.
  - apply parse_stringify.
Qed.

Lemma addToHistory_read_back (s : HistoryItem.t) (l : list HistoryItem.t) (ls : Storage) :
  getHistory ls = of_history l ->
  exists ls', addToHistory (of_item s) ls = Ok ls' /\
              getHistory ls' = of_history (inserted s l).
Proof.
  intros Hread. eexists. split; [exact (addToHistory_items s l ls Hread)|].
  apply getHistory_setItem.
Qed.

(** The invariant of the history list: a storage the module produced holds
    a list of summaries without duplicate ids. *)
Lemma managed_holds_history (ls : Storage) :
  managed ls ->
  exists l, NoDup (HistoryItem.id <$> l) /\ getHistory ls = of_history l.
Proof.
  induction 1 as [ls Habs|ls ls' s _ (l & Hnodup & Hread) Hadd|ls _ _].
  - exists []. split; [constructor|now apply getHistory_absent].
  - exists (inserted s l). split; [now apply inserted_NoDup|].
    rewrite (addToHistory_items s l ls Hread) in Hadd.
    injection Hadd as <-. apply getHistory_setItem.
  - exists []. split; [constructor|]. apply getHistory_absent.
    unfold getItem, clearHistory, removeItem. apply lookup_delete_eq.
Qed.

(** [clearHistory] followed by [getHistory] gives the empty list. *)
Lemma getHistory_clearHistory (ls : Storage) :
  getHistory (clearHistory ls) = VArr [].
Proof.
  apply getHistory_absent. unfold getItem, clearHistory, removeItem.
  apply lookup_delete_eq.
Qed.

(** C5: when nothing is stored under the history key, or what is stored
    does not parse as JSON, [getHistory] returns the empty list (it returns a
    value in every case: nothing is thrown), and an [addToHistory] right
    after succeeds, leaves the one-entry list, and stores the very text an
    insertion into a cleared store would. *)
Theorem unreadable_history_is_empty (ls : Storage) (s : HistoryItem.t) :
  (getItem HISTORY_KEY ls = None \/
   exists stored e,
     getItem HISTORY_KEY ls = Some stored /\ JSON_parse stored = Err e) ->
  getHistory ls = VArr [] /\
  exists ls' fresh,
    addToHistory (of_item s) ls = Ok ls' /\
    getHistory ls' = of_history [s] /\
    addToHistory (of_item s) (clearHistory ls) = Ok fresh /\
    getItem HISTORY_KEY ls' = getItem HISTORY_KEY fresh.
Proof.
  intros Hstate.
  assert (Hread : getHistory ls = of_history []).
  { destruct Hstate as [Habs|(stored & e & Hstored & Hparse)].
    - now apply getHistory_absent.
    - now apply getHistory_corrupt with stored e. }
  assert (Hcleared : getHistory (clearHistory ls) = of_history []).
  { apply getHistory_absent. unfold getItem, clearHistory, removeItem.
    apply lookup_delete_eq. }
  split; [exact Hread|].
  exists (setItem HISTORY_KEY (JSON_stringify (of_history (inserted s []))) ls).
  exists (setItem HISTORY_KEY (JSON_stringify (of_history (inserted s [])))
            (clearHistory ls)).
  split; [now apply addToHistory_items|].
  split; [apply (getHistory_setItem (inserted s []))|].
  split; [now apply addToHistory_items|].
  unfold getItem, setItem. now rewrite !lookup_insert_eq.
Qed.

(** C6: on a store that holds a list [l] without duplicate ids,
    [addToHistory s] succeeds and the store then holds a list without
    duplicate ids whose first entry is [s] and in which [s] is the only entry
    with the id of [s]; the entries with other ids are those of [l].
    Inserting [x] and then [y] with the same id leaves [y] in front and no
    other entry with that id: for [{id: "a", company: "X"}] followed by
    [{id: "a", company: "Y"}], one entry for ["a"], with company ["Y"]. *)
Theorem addToHistory_moves_to_front
  (l : list HistoryItem.t) (s : HistoryItem.t) (ls : Storage) :
  NoDup (HistoryItem.id <$> l) ->
  getHistory ls = of_history l ->
  (exists ls' l',
     addToHistory (of_item s) ls = Ok ls' /\
     getHistory ls' = of_history l' /\
     NoDup (HistoryItem.id <$> l') /\
     head l' = Some s /\
     filter (fun h => HistoryItem.id h = HistoryItem.id s) l' = [s] /\
     filter (fun h => HistoryItem.id h <> HistoryItem.id s) l' =
       filter (fun h => HistoryItem.id h <> HistoryItem.id s) l) /\
  (forall x : HistoryItem.t,
     HistoryItem.id x = HistoryItem.id s ->
     exists ls1 ls2 rest,
       addToHistory (of_item x) ls = Ok ls1 /\
       addToHistory (of_item s) ls1 = Ok ls2 /\
       getHistory ls2 = of_history (s :: rest) /\
       HistoryItem.id s ∉ HistoryItem.id <$> rest).
Proof.
  intros Hnodup Hread. split.
  - destruct (addToHistory_read_back s l ls Hread) as (ls' & Hadd & Hread').
    exists ls', (inserted s l). split; [exact Hadd|]. split; [exact Hread'|].
    split; [now apply inserted_NoDup|]. split; [reflexivity|].
    split; [apply inserted_once|].
    unfold inserted. rewrite filter_cons_False by (intros Hne; now apply Hne).
    apply list_filter_filter_l. tauto.
  - intros x Hid.
    destruct (addToHistory_read_back x l ls Hread) as (ls1 & Hadd1 & Hread1).
    destruct (addToHistory_read_back s _ ls1 Hread1) as (ls2 & Hadd2 & Hread2).
    exists ls1, ls2,
      (filter (fun h => HistoryItem.id h <> HistoryItem.id s) l).
    split; [exact Hadd1|]. split; [exact Hadd2|]. split.
    + rewrite Hread2. now rewrite inserted_twice.
    + apply id_not_in_filter.
Qed.

Lemma addAllToHistory_fresh (items l : list HistoryItem.t) (ls : Storage) :
  NoDup (HistoryItem.id <$> items) ->
  (forall i, i ∈ HistoryItem.id <$> items -> i ∉ HistoryItem.id <$> l) ->
  getHistory ls = of_history l ->
  exists ls', addAllToHistory (of_item <$> items) ls = Ok ls' /\
              getHistory ls' = of_history (reverse items ++ l).
Proof.
  revert l ls. induction items as [|x items IH]; intros l ls Hnodup Hfresh Hread.
  - exists ls. now split.
  - rewrite fmap_cons, NoDup_cons in Hnodup. destruct Hnodup as [Hx Hnodup].
    destruct (addToHistory_read_back x l ls Hread) as (ls1 & Hadd & Hread1).
    rewrite inserted_fresh in Hread1
      by (apply Hfresh; rewrite fmap_cons; left).
    destruct (IH (x :: l) ls1 Hnodup) as (ls' & Hall & Hread'); [|exact Hread1|].
    + intros i Hi. rewrite fmap_cons, not_elem_of_cons. split.
      * intros ->. contradiction.
      * apply Hfresh. rewrite fmap_cons. now right.
    + exists ls'. split.
      * rewrite fmap_cons. cbn [addAllToHistory]. now rewrite Hadd.
      * rewrite Hread'. now rewrite reverse_cons, <- app_assoc.
Qed.

(** C7: starting from a store with no history, inserting summaries with
    pairwise different ids one after the other succeeds, and [getHistory]
    then returns exactly those summaries, the last inserted first, without
    duplicates. *)
Theorem history_round_trip (items : list HistoryItem.t) (ls : Storage) :
  NoDup (HistoryItem.id <$> items) ->
  getItem HISTORY_KEY ls = None ->
  exists ls',
    addAllToHistory (of_item <$> items) ls = Ok ls' /\
    getHistory ls' = of_history (reverse items) /\
    length (reverse items) = length items /\
    NoDup (HistoryItem.id <$> reverse items).
Proof.
  intros Hnodup Habs.
  destruct (addAllToHistory_fresh items [] ls Hnodup) as (ls' & Hall & Hread).
  - intros i _. rewrite fmap_nil. apply not_elem_of_nil.
  - now apply getHistory_absent.
  - exists ls'. rewrite app_nil_r in Hread.
    split; [exact Hall|]. split; [exact Hread|].
    split; [apply length_reverse|].
    now rewrite fmap_reverse, reverse_Permutation.
Qed.

(** *** The results page *)

Lemma fetchData_rejected (id : string) (st : PageState) (ls : Storage) (err : exn) :
  getAssessment id = Err err ->
  fetchData id st ls = (setLoading false (setError (shown_message err) st), ls).
Proof. intros Hget. unfold fetchData. now rewrite Hget. Qed.

Lemma fetchData_recorded
  (id : string) (st : PageState) (ls ls' : Storage) (assessment item : value) :
  getAssessment id = Ok assessment ->
  summary assessment = Ok item ->
  addToHistory item ls = Ok ls' ->
  fetchData id st ls =
  (setLoading false
     (setAiMd (catch_empty (getAssessmentAI id))
        (setReportMd (catch_empty (getAssessmentReport id))
           (setData assessment st))),
   ls').
Proof.
  intros Hget Hsummary Hadd. unfold fetchData.
  now rewrite Hget, Hsummary, result_bind_Ok, Hadd.
Qed.

Lemma getAssessment_detail
  (id : string) (response : Response) (props : list (string * value))
  (detail : string) :
  fetch (BASE_URL +:+ "/api/assessments/" +:+ id) GET_json = Ok response ->
  ok response = false ->
  JSON_parse (text response) = Ok (VObj props) ->
  lookup_prop "detail" props = VStr detail -> detail <> "" ->
  getAssessment id = Err (Error detail).
Proof.
  intros Hfetch Hok Hparse Hdetail Hne. unfold getAssessment.
  erewrite request_fetched by exact Hfetch.
  rewrite (settle_not_ok _ Hok), (errorMessage_object _ _ Hparse).
  cbv zeta. rewrite Hdetail. now rewrite (proj2 (truthy_VStr detail) Hne).
Qed.

(** C2: when [getAssessment] fails, [fetchData] ends in the error state,
    showing the message of the error (the stock message if that is empty),
    loading is over, nothing else of the component state changes and the
    storage is returned untouched: the history is not written.  For an
    answer with a status outside 200-299 whose JSON body carries a non-empty
    string [detail] (a 404 with [detail: "not found"]), the message shown
    contains that text. *)
Theorem fetchData_canonical_failure (id : string) (st : PageState) (ls : Storage) :
  (forall err,
     getAssessment id = Err err ->
     fetchData id st ls = (setLoading false (setError (shown_message err) st), ls) /\
     error (fst (fetchData id st ls)) = Some (shown_message err) /\
     data (fst (fetchData id st ls)) = data st /\
     snd (fetchData id st ls) = ls /\
     getHistory (snd (fetchData id st ls)) = getHistory ls) /\
  (forall response props detail,
     fetch (BASE_URL +:+ "/api/assessments/" +:+ id) GET_json = Ok response ->
     ok response = false ->
     JSON_parse (text response) = Ok (VObj props) ->
     lookup_prop "detail" props = VStr detail -> detail <> "" ->
     getAssessment id = Err (Error detail) /\
     (exists shown,
        error (fst (fetchData id st ls)) = Some shown /\
        includes shown detail = true) /\
     snd (fetchData id st ls) = ls).
Proof.
  split.
  - intros err Hget. rewrite (fetchData_rejected _ _ _ _ Hget). now repeat split.
  - intros response props detail Hfetch Hok Hparse Hdetail Hne.
    pose proof (getAssessment_detail _ _ _ _ Hfetch Hok Hparse Hdetail Hne) as Hget.
    rewrite (fetchData_rejected _ _ _ _ Hget).
    split; [exact Hget|]. split; [|reflexivity].
    exists detail. split; [|apply includes_refl].
    cbn. unfold shown_message. cbn [message].
    now rewrite (proj2 (truthy_VStr detail) Hne).
Qed.

Lemma fetchData_slots
  (id : string) (st : PageState) (ls : Storage) (assessment : value) :
  getAssessment id = Ok assessment ->
  data (fetchData id st ls).1 = assessment /\
  reportMd (fetchData id st ls).1 = catch_empty (getAssessmentReport id) /\
  aiMd (fetchData id st ls).1 = catch_empty (getAssessmentAI id) /\
  loading (fetchData id st ls).1 = false.
Proof.
  intros Hget. unfold fetchData. rewrite Hget.
  destruct (item ← summary assessment; addToHistory item ls); now repeat split.
Qed.


(** C1, as amended: when [getAssessment] and both optional fetches succeed,
    [fetchData] shows the record and the two texts exactly as the gateway
    returned them; a text is the empty string when the envelope had no or an
    empty field, so neither text has to be non-empty.  When the record's
    [id], [company], [industry] and [created_at] are the strings of [s] and
    the store holds a list [l], no error is raised and the history then holds
    a list whose first entry is [s] and whose only entry with the id of [s]
    is [s]. *)
Theorem fetchData_all_fulfilled
  (id : string) (st : PageState) (ls : Storage) (assessment report ai : value) :
  getAssessment id = Ok assessment ->
  getAssessmentReport id = Ok report ->
  getAssessmentAI id = Ok ai ->
  data (fetchData id st ls).1 = assessment /\
  reportMd (fetchData id st ls).1 = report /\
  aiMd (fetchData id st ls).1 = ai /\
  loading (fetchData id st ls).1 = false /\
  (forall (s : HistoryItem.t) (l : list HistoryItem.t),
     summary assessment = Ok (of_item s) ->
     getHistory ls = of_history l ->
     error (fetchData id st ls).1 = error st /\
     exists l',
       getHistory (fetchData id st ls).2 = of_history l' /\
       head l' = Some s /\
       filter (fun h => HistoryItem.id h = HistoryItem.id s) l' = [s]).
Proof.
  intros Hget Hreport Hai.
  destruct (fetchData_slots id st ls assessment Hget)
    as (Hdata & Hreport' & Hai' & Hloading).
  rewrite Hreport in Hreport'. rewrite Hai in Hai'.
  split; [exact Hdata|]. split; [exact Hreport'|]. split; [exact Hai'|].
  split; [exact Hloading|].
  intros s l Hsummary Hread.
  destruct (addToHistory_read_back s l ls Hread) as (ls' & Hadd & Hread').
  rewrite (fetchData_recorded _ st _ _ _ _ Hget Hsummary Hadd).
  split; [reflexivity|]. exists (inserted s l).
  split; [exact Hread'|]. split; [reflexivity|]. apply inserted_once.
Qed.

(** *** Beyond the stated properties: the download of the report *)

(** X10: after [fetchData] has fetched the record, the report download
    offers exactly the text the gateway returned, as [text/markdown], under
    the name [<company>_report.md], or [assessment_report.md] when the
    record has no or an empty company; and there is no download at all when
    the report could not be fetched or is empty.  This does not depend on
    the history having been written. *)
Theorem download_after_fetchData
  (id : string) (st : PageState) (ls : Storage) (assessment : value) :
  getAssessment id = Ok assessment ->
  (forall e, getAssessmentReport id = Err e ->
     handleDownloadReport (fetchData id st ls).1 = Ok None) /\
  (getAssessmentReport id = Ok (VStr "") ->
     handleDownloadReport (fetchData id st ls).1 = Ok None) /\
  (forall report, getAssessmentReport id = Ok (VStr report) -> report <> "" ->
     (forall company, prop assessment "company" = VStr company -> company <> "" ->
        handleDownloadReport (fetchData id st ls).1 =
        Ok (Some {| filename := company +:+ "_report.md";
                    blob := report; blob_type := "text/markdown" |})) /\
     (truthy (prop assessment "company") = false ->
        handleDownloadReport (fetchData id st ls).1 =
        Ok (Some {| filename := "assessment_report.md";
                    blob := report; blob_type := "text/markdown" |}))).
Proof.
  intros Hget.
  destruct (fetchData_slots id st ls assessment Hget) as (Hdata & Hreport & _ & _).
  unfold handleDownloadReport. rewrite Hdata, Hreport.
  split; [|split].
  - intros e He. now rewrite He.
  - intros Hempty. now rewrite Hempty.
  - intros report Hr Hne. rewrite Hr. cbn [catch_empty].
    rewrite (proj2 (truthy_VStr report) Hne). cbn [negb to_string].
    rewrite result_bind_Ok. split.
    + intros company Hcompany Hcne. unfold or_else. rewrite Hcompany.
      now rewrite (proj2 (truthy_VStr company) Hcne).
    + intros Hfalsy. unfold or_else. now rewrite Hfalsy.
Qed.

(** *** Beyond the stated properties: the upload page *)

Lemma upload_message_truthy (err : exn) : truthy (VStr (upload_message err)) = true.
Proof.
  unfold upload_message.
  destruct (truthy (VStr (message err))) eqn:Hm; [exact Hm|reflexivity].
Qed.

Lemma handleSubmit_valid (st : Upload.State) (ls : Storage) :
  passes_validation st ->
  handleSubmit st ls =
  let '(st', ls', route) :=
    match createAssessment (Upload.formData_of st) with
    | Err err =>
        (Upload.setError (Some (upload_message err))
           (Upload.setLoading true (Upload.setError None st)), ls, None)
    | Ok response =>
        match item ← summary response; addToHistory item ls with
        | Err err =>
            (Upload.setError (Some (upload_message err))
               (Upload.setLoading true (Upload.setError None st)), ls, None)
        | Ok ls' =>
            match id ← get response "id"; to_string id with
            | Err err =>
                (Upload.setError (Some (upload_message err))
                   (Upload.setLoading true (Upload.setError None st)), ls', None)
            | Ok id =>
                (Upload.setLoading true (Upload.setError None st), ls',
                 Some ("/assessments/" +:+ id))
            end
        end
    end in
  (Upload.setLoading false st', ls', route).
Proof.
  intros (Hcompany & Hindustry & [sales Hsales] & [expenses Hexpenses]).
  unfold handleSubmit.
  change (Upload.company (Upload.setError None st)) with (Upload.company st).
  change (Upload.industry (Upload.setError None st)) with (Upload.industry st).
  change (Upload.files (Upload.setError None st)) with (Upload.files st).
  rewrite Hcompany, (proj2 (truthy_VStr _) Hindustry), Hsales, Hexpenses.
  reflexivity.
Qed.

(** X11: [handleSubmit] checks the form before anything else.  A company
    name with fewer than two characters once trimmed, an empty industry, or
    a missing sales or expenses file ends the submission with the message
    of the first check that fails: nothing is sent, the storage and the
    form are as before, the page does not navigate and does not enter the
    loading state. *)
Theorem handleSubmit_rejects_invalid_form (st : Upload.State) (ls : Storage) :
  let short := (units (trim (code_points (Upload.company st))) <? 2)%nat in
  (short = true ->
   handleSubmit st ls =
   (Upload.setError (Some "Company name must be at least 2 characters.") st,
    ls, None)) /\
  (short = false -> Upload.industry st = "" ->
   handleSubmit st ls =
   (Upload.setError (Some "Please select an industry.") st, ls, None)) /\
  (short = false -> Upload.industry st <> "" ->
   Upload.sales (Upload.files st) = None \/
   Upload.expenses (Upload.files st) = None ->
   handleSubmit st ls =
   (Upload.setError (Some "Sales and Expenses files are required.") st,
    ls, None)).
Proof.
  cbv zeta. unfold handleSubmit.
  change (Upload.company (Upload.setError None st)) with (Upload.company st).
  change (Upload.industry (Upload.setError None st)) with (Upload.industry st).
  change (Upload.files (Upload.setError None st)) with (Upload.files st).
  split; [|split].
  - intros Hshort. now rewrite Hshort.
  - intros Hlong Hindustry. now rewrite Hlong, Hindustry.
  - intros Hlong Hindustry Hfiles.
    rewrite Hlong, (proj2 (truthy_VStr _) Hindustry). cbn [negb].
    destruct Hfiles as [Hnone|Hnone]; rewrite Hnone; [reflexivity|].
    now destruct (Upload.sales (Upload.files st)).
Qed.

(** X12: when the form is valid and [createAssessment] fails, the page
    shows the message of the error (the stock message if that is empty),
    leaves the loading state, does not navigate and does not touch the
    history. *)
Theorem handleSubmit_create_fails
  (st : Upload.State) (ls : Storage) (err : exn) :
  passes_validation st ->
  createAssessment (Upload.formData_of st) = Err err ->
  handleSubmit st ls =
  (Upload.setLoading false (Upload.setError (Some (upload_message err)) st),
   ls, None) /\
  upload_message err <> "".
Proof.
  intros Hvalid Hcreate. rewrite (handleSubmit_valid st ls Hvalid), Hcreate.
  split; [reflexivity|]. apply truthy_VStr, upload_message_truthy.
Qed.

(** X13: when the server created the assessment and the stored history is
    unusable (no array, or an array with a [null]), [handleSubmit] ends
    with the [TypeError]'s message: the page does not navigate to the new
    assessment and the history is not written, although the assessment
    exists. *)
Theorem handleSubmit_created_not_recorded
  (st : Upload.State) (ls : Storage) (response item : value) :
  passes_validation st ->
  createAssessment (Upload.formData_of st) = Ok response ->
  summary response = Ok item ->
  (forall elems, getHistory ls <> VArr elems) \/
  (exists elems, getHistory ls = VArr elems /\
                 (VNull ∈ elems \/ VUndefined ∈ elems)) ->
  exists m,
    handleSubmit st ls =
    (Upload.setLoading false
       (Upload.setError (Some (upload_message (TypeError m))) st),
     ls, None).
Proof.
  intros Hvalid Hcreate Hsummary Hbad.
  destruct (addToHistory_unusable item ls Hbad) as [m Hm]. exists m.
  rewrite (handleSubmit_valid st ls Hvalid), Hcreate, Hsummary.
  rewrite result_bind_Ok, Hm. reflexivity.
Qed.

Lemma elem_of_append_file
  (key key' : string) (file : option Upload.File) (entry : FormDataEntryValue) :
  (key', entry) ∈ Upload.append_file key file <->
  key' = key /\
  exists f, file = Some f /\ entry = FormFile (Upload.name f) (Upload.contents f).
Proof.
  destruct file as [f|]; cbn [Upload.append_file].
  - rewrite list_elem_of_singleton. split.
    + intros [= -> ->]. eauto.
    + intros (-> & f' & [= <-] & ->). reflexivity.
  - rewrite elem_of_nil. split; [tauto|]. now intros (_ & f & Hf & _).
Qed.

(** X14: what [handleSubmit] sends.  The form data carries the company,
    the industry and the language as typed (the company is not trimmed),
    and a file under the name of its field exactly when the user chose one
    for that field; it carries nothing else. *)
Theorem formData_of_entries
  (st : Upload.State) (name : string) (entry : FormDataEntryValue) :
  (name, entry) ∈ Upload.formData_of st <->
  (name = "company" /\ entry = FormText (Upload.company st)) \/
  (name = "industry" /\ entry = FormText (Upload.industry st)) \/
  (name = "lang" /\ entry = FormText (Upload.lang st)) \/
  (exists field file,
     name = Upload.key field /\
     Upload.file_of field (Upload.files st) = Some file /\
     entry = FormFile (Upload.name file) (Upload.contents file)).
Proof.
  unfold Upload.formData_of.
  rewrite !elem_of_app, !elem_of_cons, elem_of_nil, !elem_of_append_file.
  split.
  - intros [[H|[H|[H|[]]]]|[H|[H|[H|[H|[H|H]]]]]];
      try (injection H as -> ->; tauto);
      destruct H as (-> & f & Hf & ->); do 3 right.
    + now exists Upload.Sales, f.
    + now exists Upload.Expenses, f.
    + now exists Upload.Ar, f.
    + now exists Upload.Ap, f.
    + now exists Upload.Loans, f.
    + now exists Upload.Inventory, f.
  - intros [[-> ->]|[[-> ->]|[[-> ->]|(field & f & -> & Hf & ->)]]];
      [left; tauto|left; tauto|left; tauto|].
    right. destruct field; cbn in Hf |- *; eauto 12.
Qed.

(** X15: [handleFileChange] replaces the file of the field it is called
    for, by the first file of the selection, and leaves every other field
    and the rest of the form alone.  A selection without a file (the dialog
    was cancelled) changes nothing: a file once chosen cannot be taken
    back. *)
Theorem handleFileChange_keeps_files
  (chosen : option (list Upload.File)) (field : Upload.Field) (st : Upload.State) :
  (forall file more, chosen = Some (file :: more) ->
     Upload.file_of field (Upload.files (Upload.handleFileChange chosen field st))
     = Some file) /\
  (chosen = None \/ chosen = Some [] ->
   Upload.handleFileChange chosen field st = st) /\
  (forall other, other <> field ->
     Upload.file_of other (Upload.files (Upload.handleFileChange chosen field st))
     = Upload.file_of other (Upload.files st)) /\
  (forall other file,
     Upload.file_of other (Upload.files st) = Some file ->
     exists file',
       Upload.file_of other
         (Upload.files (Upload.handleFileChange chosen field st)) = Some file') /\
  Upload.company (Upload.handleFileChange chosen field st) = Upload.company st /\
  Upload.industry (Upload.handleFileChange chosen field st) = Upload.industry st /\
  Upload.lang (Upload.handleFileChange chosen field st) = Upload.lang st /\
  Upload.error (Upload.handleFileChange chosen field st) = Upload.error st /\
  Upload.loading (Upload.handleFileChange chosen field st) = Upload.loading st.
Proof.
  split; [|split; [|split; [|split]]].
  - intros file more ->. now destruct field.
  - now intros [-> | ->].
  - intros other Hother. destruct chosen as [[|file more]|]; try reflexivity.
    destruct field, other; try reflexivity; now destruct Hother.
  - intros other file Hfile. destruct chosen as [[|file' more]|]; eauto.
    destruct field, other; cbn in Hfile |- *; eauto.
  - destruct chosen as [[|file more]|]; now repeat split.
Qed.

(** *** Beyond the stated properties: the history page *)

(** X16: [handleClear] keeps the list the history page shows equal to the
    stored list: declined, it changes neither; confirmed, it empties both,
    so that reloading the page shows the empty list again. *)
Theorem handleClear_in_step
  (confirmed : bool) (history : value) (ls : Storage) :
  history = getHistory ls ->
  (handleClear confirmed history ls).1 = getHistory (handleClear confirmed history ls).2 /\
  (confirmed = false -> handleClear confirmed history ls = (history, ls)) /\
  (confirmed = true ->
   (handleClear confirmed history ls).1 = VArr [] /\
   getItem HISTORY_KEY (handleClear confirmed history ls).2 = None).
Proof.
  intros Hshown. destruct confirmed; cbn [handleClear fst snd].
  - rewrite getHistory_clearHistory. split; [reflexivity|].
    split; [discriminate|]. intros _. split; [reflexivity|].
    unfold getItem, clearHistory, removeItem. apply lookup_delete_eq.
  - split; [exact Hshown|]. split; [reflexivity|discriminate].
Qed.

(** *** Beyond the stated properties: lists of summaries in the store *)

Lemma filter_other_ids_length (i : string) (l : list HistoryItem.t) :
  NoDup (HistoryItem.id <$> l) ->
  (i ∈ HistoryItem.id <$> l ->
   S (length (filter (fun h => HistoryItem.id h <> i) l)) = length l) /\
  (i ∉ HistoryItem.id <$> l ->
   length (filter (fun h => HistoryItem.id h <> i) l) = length l).
Proof.
  induction l as [|h l IH]; intros Hnodup.
  - split; [intros Hin; now apply elem_of_nil in Hin|reflexivity].
  - rewrite fmap_cons, NoDup_cons in Hnodup. destruct Hnodup as [Hh Hnodup].
    destruct (IH Hnodup) as [IHin IHout]. rewrite fmap_cons, filter_cons.
    destruct (decide (HistoryItem.id h <> i)) as [Hne|Heq].
    + split.
      * intros Hin. apply elem_of_cons in Hin as [Hin|Hin]; [congruence|].
        cbn [length]. now rewrite IHin.
      * intros Hout. apply not_elem_of_cons in Hout as [_ Hout].
        cbn [length]. now rewrite IHout.
    + assert (HistoryItem.id h = i) as <- by (destruct (decide (HistoryItem.id h = i)); tauto).
      split.
      * intros _. cbn [length]. now rewrite (IHout Hh).
      * intros Hout. apply not_elem_of_cons in Hout as [Hout _]. congruence.
Qed.

(** X17: the history the module keeps is always a list of summaries
    without duplicate ids: this holds of a storage without a history, and
    [addToHistory] and [clearHistory] preserve it. *)
Theorem history_stays_duplicate_free (ls : Storage) :
  managed ls ->
  exists l, NoDup (HistoryItem.id <$> l) /\ getHistory ls = of_history l.
Proof.
  induction 1 as [ls Habs|ls ls' s _ (l & Hnodup & Hread) Hadd|ls _ _].
  - exists []. split; [constructor|now apply getHistory_absent].
  - exists (inserted s l). split; [now apply inserted_NoDup|].
    rewrite (addToHistory_items s l ls Hread) in Hadd.
    injection Hadd as <-. apply getHistory_setItem.
  - exists []. split; [constructor|]. apply getHistory_clearHistory.
Qed.

(** X18: inserting the same summary twice is inserting it once: the second
    [addToHistory] succeeds and leaves the storage exactly as the first
    did. *)
Theorem addToHistory_twice_is_once
  (s : HistoryItem.t) (l : list HistoryItem.t) (ls : Storage) :
  getHistory ls = of_history l ->
  exists ls1,
    addToHistory (of_item s) ls = Ok ls1 /\
    addToHistory (of_item s) ls1 = Ok ls1.
Proof.
  intros Hread. eexists. split; [exact (addToHistory_items s l ls Hread)|].
  rewrite (addToHistory_items s (inserted s l)) by apply getHistory_setItem.
  rewrite inserted_twice by reflexivity.
  unfold setItem. now rewrite insert_insert_eq.
Qed.

(** X19: [addToHistory] makes a duplicate-free history one entry longer
    when the id is new and leaves its length as it is when the id is
    already there: the history never grows by re-inserting, and never
    shrinks. *)
Theorem addToHistory_length
  (s : HistoryItem.t) (l : list HistoryItem.t) (ls : Storage) :
  NoDup (HistoryItem.id <$> l) ->
  getHistory ls = of_history l ->
  exists ls' l',
    addToHistory (of_item s) ls = Ok ls' /\
    getHistory ls' = of_history l' /\
    (HistoryItem.id s ∈ HistoryItem.id <$> l -> length l' = length l) /\
    (HistoryItem.id s ∉ HistoryItem.id <$> l -> length l' = S (length l)).
Proof.
  intros Hnodup Hread.
  destruct (addToHistory_read_back s l ls Hread) as (ls' & Hadd & Hread').
  destruct (filter_other_ids_length (HistoryItem.id s) l Hnodup) as [Hin Hout].
  exists ls', (inserted s l). split; [exact Hadd|]. split; [exact Hread'|].
  unfold inserted. cbn [length]. split.
  - intros Hmem. now apply Hin.
  - intros Hmem. now rewrite (Hout Hmem).
Qed.

Lemma summary_id (response : value) (s : HistoryItem.t) :
  summary response = Ok (of_item s) ->
  get response "id" = Ok (VStr (HistoryItem.id s)).
Proof.
  unfold summary.
  destruct (get response "id") as [id|e] eqn:Hid; [|discriminate].
  destruct (get response "company") as [company|e]; [|discriminate].
  destruct (get response "industry") as [industry|e]; [|discriminate].
  destruct (get response "created_at") as [created_at|e]; [|discriminate].
  rewrite !result_bind_Ok. unfold of_item. intros H. inversion H. reflexivity.
Qed.

(** X20: when the form is valid, the server answers with a record whose
    [id], [company], [industry] and [created_at] are the strings of [s],
    and the store holds a list [l]: [handleSubmit] records [s] at the front
    of the history, navigates to [/assessments/<id>], and leaves the page
    without an error and out of the loading state, the form as it was. *)
Theorem handleSubmit_success
  (st : Upload.State) (ls : Storage) (response : value)
  (s : HistoryItem.t) (l : list HistoryItem.t) :
  passes_validation st ->
  createAssessment (Upload.formData_of st) = Ok response ->
  summary response = Ok (of_item s) ->
  getHistory ls = of_history l ->
  exists ls',
    handleSubmit st ls =
    (Upload.setLoading false (Upload.setError None st), ls',
     Some ("/assessments/" +:+ HistoryItem.id s)) /\
    getHistory ls' = of_history (inserted s l).
Proof.
  intros Hvalid Hcreate Hsummary Hread.
  destruct (addToHistory_read_back s l ls Hread) as (ls' & Hadd & Hread').
  exists ls'. split; [|exact Hread'].
  rewrite (handleSubmit_valid st ls Hvalid), Hcreate, Hsummary.
  rewrite result_bind_Ok, Hadd, (summary_id _ _ Hsummary).
  reflexivity.
Qed.

End Codec.

End Platform.

(** ** The reference codec reads back what it writes

    The two facts about the codec that the history properties rest on hold
    of [RefJSON]: the text written for a list of summaries parses to that
    list, and the empty text does not parse. *)

Import RefJSON.
#[local] Arguments String.append !s1 s2 : simpl nomatch.

Lemma append_assoc (a b c : string) : (a +:+ b) +:+ c = a +:+ b +:+ c.
Proof. induction a as [|x a IH]; cbn; [reflexivity|]. now f_equal. Qed.

Lemma length_append (a b : string) :
  String.length (a +:+ b) = (String.length a + String.length b)%nat.
Proof. induction a as [|x a IH]; cbn; [reflexivity|]. now f_equal. Qed.

Lemma parse_chars_escape_char (c : ascii) (s : string) :
  parse_chars (escape_char c +:+ s) =
  '(t, rest) ← parse_chars s; Some (String c t, rest).
Proof.
  destruct c as [[] [] [] [] [] [] [] []]; reflexivity.
Qed.

Lemma parse_chars_escape (s rest : string) :
  parse_chars (escape s +:+ String dquote rest) = Some (s, rest).
Proof.
  induction s as [|c s IH]; [reflexivity|].
  cbn [escape]. rewrite append_assoc, parse_chars_escape_char, IH. reflexivity.
Qed.


Lemma skip_ws_other (c : ascii) (r : string) :
  is_ws c = false -> skip_ws (String c r) = String c r.
Proof. intros Hc. cbn [skip_ws]. now rewrite Hc. Qed.

Lemma parse_value_string (f : nat) (s rest : string) :
  parse_value (S f) (String dquote (escape s +:+ String dquote rest))
  = Some (VStr s, rest).
Proof.
  cbn [parse_value]. rewrite skip_ws_other by reflexivity.
  change (nat_of_ascii dquote) with 34%nat. cbn [Nat.eqb].
  now rewrite parse_chars_escape.
Qed.



Lemma concat_cons2 (sep x y : string) (l : list string) :
  String.concat sep (x :: y :: l) = x +:+ sep +:+ String.concat sep (y :: l).
Proof. reflexivity. Qed.

Lemma parse_members_strings (kvs : list (string * string)) (f : nat) (rest : string) :
  kvs <> [] -> (length kvs < f)%nat ->
  parse_members f (String.concat "," (map member_text kvs) +:+ String "}" rest)
  = Some (map (fun kv => (kv.1, VStr kv.2)) kvs, rest).
Proof.
  revert f. induction kvs as [|[k v] kvs IH]; intros f Hne Hf; [congruence|].
  destruct f as [|f]; [cbn in Hf; lia|].
  assert (Hf' : exists f', f = S f') by (destruct f; [cbn in Hf; lia|eauto]).
  destruct kvs as [|kv kvs].
  - unfold member_text, quoted. repeat (rewrite ?append_assoc; cbn [String.append String.concat map fst snd]).
    cbn [parse_members]. rewrite skip_ws_other by reflexivity.
    change (nat_of_ascii dquote) with 34%nat. cbn [Nat.eqb].
    rewrite parse_chars_escape. cbn [mbind option_bind].
    rewrite skip_ws_other by reflexivity.
    change (nat_of_ascii ":") with 58%nat. cbn [Nat.eqb].
    destruct Hf' as [f' ->]. rewrite parse_value_string. cbn [mbind option_bind].
    rewrite skip_ws_other by reflexivity. reflexivity.
  - change (map member_text ((k, v) :: kv :: kvs))
      with (member_text (k, v) :: map member_text (kv :: kvs)).
    specialize (IH f (ltac:(discriminate)) (ltac:(cbn in Hf |- *; lia))).
    remember (map member_text (kv :: kvs)) as texts eqn:Htexts.
    destruct texts as [|t texts]; [discriminate|].
    rewrite concat_cons2.
    remember (String.concat "," (t :: texts)) as tail eqn:Htail.
    unfold member_text, quoted. repeat (rewrite ?append_assoc; cbn [String.append String.concat map fst snd]).
    cbn [parse_members]. rewrite skip_ws_other by reflexivity.
    change (nat_of_ascii dquote) with 34%nat. cbn [Nat.eqb].
    rewrite parse_chars_escape. cbn [mbind option_bind].
    rewrite skip_ws_other by reflexivity.
    change (nat_of_ascii ":") with 58%nat. cbn [Nat.eqb].
    destruct Hf' as [f' ->]. rewrite parse_value_string. cbn [mbind option_bind].
    rewrite skip_ws_other by reflexivity.
    change (nat_of_ascii ",") with 44%nat. cbn [Nat.eqb].
    rewrite IH. reflexivity.
Qed.


Lemma members_text_head (kvs : list (string * string)) (rest : string) :
  kvs <> [] ->
  exists r, String.concat "," (map member_text kvs) +:+ rest = String dquote r.
Proof.
  destruct kvs as [|[k v] [|kv kvs]]; [congruence|..]; intros _.
  - unfold member_text at 1, quoted. repeat (rewrite ?append_assoc; cbn [String.append String.concat map fst snd]). eauto.
  - change (map member_text ((k, v) :: kv :: kvs))
      with (member_text (k, v) :: member_text kv :: map member_text kvs).
    rewrite concat_cons2. unfold member_text at 1, quoted.
    rewrite !append_assoc. cbn [String.append]. eauto.
Qed.

Lemma stringify_item (h : HistoryItem.t) (rest : string) :
  stringify (of_item h) +:+ rest =
  String "{" (String.concat "," (map member_text (item_members h)) +:+ String "}" rest).
Proof.
  change (stringify (of_item h))
    with ("{" +:+ String.concat "," (map member_text (item_members h)) +:+ "}").
  cbn [String.append]. now rewrite append_assoc.
Qed.

Lemma parse_item (h : HistoryItem.t) (f : nat) (rest : string) :
  (5 < f)%nat ->
  parse_value f (stringify (of_item h) +:+ rest) = Some (of_item h, rest).
Proof.
  intros Hf. destruct f as [|f]; [lia|].
  rewrite stringify_item.
  destruct (members_text_head (item_members h) (String "}" rest)) as [r Hr];
    [discriminate|].
  cbn [parse_value]. rewrite skip_ws_other by reflexivity.
  change (nat_of_ascii "{") with 123%nat. cbn [Nat.eqb].
  rewrite Hr at 1. rewrite skip_ws_other by reflexivity.
  change (nat_of_ascii dquote) with 34%nat. cbn [Nat.eqb].
  rewrite parse_members_strings; [reflexivity|discriminate|cbn; lia].
Qed.

Lemma elements_items (l : list HistoryItem.t) :
  (fix elements (l : list value) : list string :=
     match l with
     | [] => []
     | VUndefined :: r => "null" :: elements r
     | e :: r => stringify e :: elements r
     end) (of_item <$> l)
  = map (fun h => stringify (of_item h)) l.
Proof. induction l as [|h l IH]; [reflexivity|]. cbn. now f_equal. Qed.

Lemma parse_elements_items (l : list HistoryItem.t) (f : nat) (rest : string) :
  l <> [] -> (length l + 6 <= f)%nat ->
  parse_elements f
    (String.concat "," (map (fun h => stringify (of_item h)) l) +:+ String "]" rest)
  = Some (of_item <$> l, rest).
Proof.
  revert f. induction l as [|h l IH]; intros f Hne Hf; [congruence|].
  destruct f as [|f]; [cbn in Hf; lia|].
  destruct l as [|h' l].
  - cbn [map String.concat parse_elements].
    rewrite parse_item by (cbn in Hf; lia). cbn [mbind option_bind].
    rewrite skip_ws_other by reflexivity. reflexivity.
  - change (map (fun h => stringify (of_item h)) (h :: h' :: l))
      with (stringify (of_item h) :: map (fun h => stringify (of_item h)) (h' :: l)).
    specialize (IH f (ltac:(discriminate)) (ltac:(cbn in Hf |- *; lia))).
    remember (map (fun h => stringify (of_item h)) (h' :: l)) as texts eqn:Htexts.
    destruct texts as [|t texts]; [discriminate|].
    rewrite concat_cons2.
    remember (String.concat "," (t :: texts)) as tail eqn:Htail.
    rewrite !append_assoc. cbn [parse_elements].
    rewrite parse_item by (cbn in Hf; lia). cbn [mbind option_bind].
    cbn [String.append].
    rewrite skip_ws_other by reflexivity.
    change (nat_of_ascii ",") with 44%nat. cbn [Nat.eqb].
    rewrite IH. reflexivity.
Qed.


Lemma length_item (h : HistoryItem.t) :
  (5 <= String.length (stringify (of_item h)))%nat.
Proof.
  change (stringify (of_item h))
    with ("{" +:+ String.concat "," (map member_text (item_members h)) +:+ "}").
  cbn [item_members map String.concat]. unfold member_text, quoted.
  repeat (rewrite ?length_append; cbn [String.length fst snd]). lia.
Qed.

Lemma length_concat_items (l : list HistoryItem.t) :
  (5 * length l <=
   String.length (String.concat "," (map (fun h => stringify (of_item h)) l)))%nat.
Proof.
  induction l as [|h [|h' l] IH]; [cbn; lia| |].
  - cbn [map String.concat length]. pose proof (length_item h). lia.
  - change (map (fun h => stringify (of_item h)) (h :: h' :: l))
      with (stringify (of_item h) :: map (fun h => stringify (of_item h)) (h' :: l)).
    remember (map (fun h => stringify (of_item h)) (h' :: l)) as texts eqn:Htexts.
    destruct texts as [|t texts]; [discriminate|].
    rewrite concat_cons2, !length_append. pose proof (length_item h).
    cbn [length] in *. lia.
Qed.


Lemma items_text_head (l : list HistoryItem.t) (rest : string) :
  l <> [] ->
  exists r,
    String.concat "," (map (fun h => stringify (of_item h)) l) +:+ rest
    = String "{" r.
Proof.
  destruct l as [|h [|h' l]]; [congruence|..]; intros _.
  - cbn [map String.concat]. rewrite stringify_item. eauto.
  - change (map (fun h => stringify (of_item h)) (h :: h' :: l))
      with (stringify (of_item h) :: stringify (of_item h')
            :: map (fun h => stringify (of_item h)) l).
    rewrite concat_cons2, append_assoc, stringify_item. eauto.
Qed.

Lemma parse_stringify_history (l : list HistoryItem.t) :
  parse (stringify (of_history l)) = Ok (of_history l).
Proof.
  unfold of_history. cbn [stringify]. rewrite elements_items.
  destruct l as [|h l]; [reflexivity|].
  remember (h :: l) as items eqn:Hitems.
  assert (Hne : items <> []) by (subst items; discriminate).
  unfold parse.
  assert (Hlen : (length items + 6 <=
            String.length ("[" +:+ String.concat "," (map (fun h => stringify (of_item h)) items) +:+ "]"))%nat).
  { rewrite !length_append. pose proof (length_concat_items items).
    subst items. cbn [length String.length] in *. lia. }
  remember (String.length _) as n eqn:Hn. clear Hn.
  cbn [String.append]. cbn [parse_value].
  rewrite skip_ws_other by reflexivity.
  change (nat_of_ascii "[") with 91%nat. cbn [Nat.eqb].
  destruct (items_text_head items "]" Hne) as [r Hr].
  rewrite Hr at 1. rewrite skip_ws_other by reflexivity.
  change (nat_of_ascii "{") with 123%nat. cbn [Nat.eqb].
  rewrite (parse_elements_items items n "" Hne Hlen). reflexivity.
Qed.

Lemma parse_empty_text (v : value) : parse "" <> Ok v.
Proof. discriminate. Qed.

(** ** The sources at work

    The properties above, at concrete inputs: the reference codec, the
    servers of [Demo], and the default base address. *)

(** C10 at the stored text ["42"]: [getHistory] returns the number. *)
Lemma getHistory_returns_42 :
  getHistory RefJSON.parse {[HISTORY_KEY := "42"]} = VNum 42 /\
  getHistory RefJSON.parse {[HISTORY_KEY := "42"]} <> VArr [].
Proof.
  pose proof (getHistory_returns_any_parsed_value RefJSON.parse
                {[HISTORY_KEY := "42"]} "42" (VNum 42)
                eq_refl ltac:(discriminate) eq_refl) as [Hread Hshape].
  split; [exact Hread|]. apply Hshape. discriminate.
Defined.

(** C5 at a stored text that is not JSON. *)
Lemma corrupt_history_then_insert :
  getHistory RefJSON.parse {[HISTORY_KEY := "{not json"]} = VArr [] /\
  exists ls' fresh,
    addToHistory RefJSON.parse RefJSON.stringify (of_item Demo.record_summary)
      {[HISTORY_KEY := "{not json"]} = Ok ls' /\
    getHistory RefJSON.parse ls' = of_history [Demo.record_summary] /\
    addToHistory RefJSON.parse RefJSON.stringify (of_item Demo.record_summary)
      (clearHistory {[HISTORY_KEY := "{not json"]}) = Ok fresh /\
    getItem HISTORY_KEY ls' = getItem HISTORY_KEY fresh.
Proof.
  apply (unreadable_history_is_empty RefJSON.parse RefJSON.stringify
           parse_stringify_history parse_empty_text).
  right. exists "{not json", (SyntaxError "Unexpected token in JSON").
  split; reflexivity.
Defined.

(** C6 at the example of the specification: [{id: "a", company: "X"}], then
    [{id: "a", company: "Y"}], on a store that already holds an entry ["b"]. *)
Lemma insert_X_then_Y :
  exists ls1 ls2 rest,
    addToHistory RefJSON.parse RefJSON.stringify (of_item Demo.item_aX)
      {[HISTORY_KEY := RefJSON.stringify (of_history [Demo.item_b])]} = Ok ls1 /\
    addToHistory RefJSON.parse RefJSON.stringify (of_item Demo.item_aY) ls1
      = Ok ls2 /\
    getHistory RefJSON.parse ls2 = of_history (Demo.item_aY :: rest) /\
    "a" ∉ HistoryItem.id <$> rest.
Proof.
  refine (proj2 (addToHistory_moves_to_front RefJSON.parse RefJSON.stringify
                   parse_stringify_history parse_empty_text
                   [Demo.item_b] Demo.item_aY
                   {[HISTORY_KEY := RefJSON.stringify (of_history [Demo.item_b])]}
                   _ _) Demo.item_aX eq_refl).
  - apply NoDup_singleton.
  - vm_compute. reflexivity.
Defined.

(** C7 at three summaries. *)
Lemma three_inserts_read_back :
  exists ls',
    addAllToHistory RefJSON.parse RefJSON.stringify
      (of_item <$> [Demo.item_aX; Demo.item_b; Demo.record_summary]) ∅ = Ok ls' /\
    getHistory RefJSON.parse ls'
      = of_history [Demo.record_summary; Demo.item_b; Demo.item_aX] /\
    length (reverse [Demo.item_aX; Demo.item_b; Demo.record_summary]) = 3%nat /\
    NoDup (HistoryItem.id
             <$> reverse [Demo.item_aX; Demo.item_b; Demo.record_summary]).
Proof.
  refine (history_round_trip RefJSON.parse RefJSON.stringify
            parse_stringify_history parse_empty_text
            [Demo.item_aX; Demo.item_b; Demo.record_summary] ∅ _ eq_refl).
  refine (bool_decide_unpack _ _). vm_compute. exact I.
Defined.

(** C1, as amended, at the assessment ["a1"] with both texts served. *)
Lemma fetchData_a1_fulfilled :
  data (fetchData None Demo.good_server RefJSON.parse RefJSON.stringify
          "a1" initial_state ∅).1 = Demo.record /\
  reportMd (fetchData None Demo.good_server RefJSON.parse RefJSON.stringify
              "a1" initial_state ∅).1 = VStr "# Report" /\
  aiMd (fetchData None Demo.good_server RefJSON.parse RefJSON.stringify
          "a1" initial_state ∅).1 = VStr "Narrative" /\
  loading (fetchData None Demo.good_server RefJSON.parse RefJSON.stringify
             "a1" initial_state ∅).1 = false /\
  error (fetchData None Demo.good_server RefJSON.parse RefJSON.stringify
           "a1" initial_state ∅).1 = None /\
  exists l',
    getHistory RefJSON.parse
      (fetchData None Demo.good_server RefJSON.parse RefJSON.stringify
         "a1" initial_state ∅).2 = of_history l' /\
    head l' = Some Demo.record_summary /\
    filter (fun h => HistoryItem.id h = "a1") l' = [Demo.record_summary].
Proof.
  destruct (fetchData_all_fulfilled None Demo.good_server RefJSON.parse
              RefJSON.stringify parse_stringify_history parse_empty_text
              "a1" initial_state ∅ Demo.record (VStr "# Report") (VStr "Narrative")
              ltac:(vm_compute; reflexivity) ltac:(vm_compute; reflexivity)
              ltac:(vm_compute; reflexivity))
    as (Hdata & Hreport & Hai & Hloading & Hhistory).
  destruct (Hhistory Demo.record_summary [] ltac:(vm_compute; reflexivity)
              ltac:(vm_compute; reflexivity)) as (Herror & Hlist).
  split; [exact Hdata|]. split; [exact Hreport|]. split; [exact Hai|].
  split; [exact Hloading|]. split; [exact Herror|exact Hlist].
Defined.

(** C1 as stated fails: the server answers all three requests with 200, the
    report envelope carries [report_md: ""], all three gateway calls
    succeed, and the report text [fetchData] shows is the empty string. *)
Lemma fetchData_empty_report_text :
  getAssessment None Demo.empty_report_server RefJSON.parse RefJSON.stringify "a1"
    = Ok Demo.record /\
  getAssessmentReport None Demo.empty_report_server RefJSON.parse
    RefJSON.stringify "a1" = Ok (VStr "") /\
  getAssessmentAI None Demo.empty_report_server RefJSON.parse RefJSON.stringify
    "a1" = Ok (VStr "Narrative") /\
  error (fetchData None Demo.empty_report_server RefJSON.parse RefJSON.stringify
           "a1" initial_state ∅).1 = None /\
  reportMd (fetchData None Demo.empty_report_server RefJSON.parse
              RefJSON.stringify "a1" initial_state ∅).1 = VStr "".
Proof. repeat split; vm_compute; reflexivity. Qed.


(** C2 at an unknown id, which the server answers with a 404 whose body is
    [{detail: "not found"}]; the history holds the empty list and keeps it. *)
Lemma fetchData_unknown_id :
  getAssessment None Demo.good_server RefJSON.parse RefJSON.stringify "zz"
    = Err (Error "not found") /\
  (exists shown,
     error (fetchData None Demo.good_server RefJSON.parse RefJSON.stringify "zz"
              initial_state {[HISTORY_KEY := "[]"]}).1 = Some shown /\
     includes shown "not found" = true) /\
  (fetchData None Demo.good_server RefJSON.parse RefJSON.stringify "zz"
     initial_state {[HISTORY_KEY := "[]"]}).2 = {[HISTORY_KEY := "[]"]}.
Proof.
  apply (proj2 (fetchData_canonical_failure None Demo.good_server RefJSON.parse
                  RefJSON.stringify "zz" initial_state {[HISTORY_KEY := "[]"]})
           Demo.not_found [("detail", VStr "not found")] "not found");
    try (vm_compute; reflexivity).
  discriminate.
Defined.

(** C4 as stated fails: the body is JSON and has a [detail] property, the
    empty string, and the message is not that property but the status line. *)
Lemma request_empty_detail :
  ok Demo.empty_detail = false /\
  RefJSON.parse (text Demo.empty_detail) = Ok (VObj [("detail", VStr "")]) /\
  has_prop "detail" [("detail", VStr "")] /\
  request None (Demo.constant_server Demo.empty_detail) RefJSON.parse
    RefJSON.stringify "/api/assessments/a1" GET_json
  = Err (Error "Error 400: Bad Request") /\
  "Error 400: Bad Request" <> "".
Proof.
  repeat split; try (vm_compute; reflexivity).
  - exists (VStr ""). left.
  - discriminate.
Qed.

(** C4, as amended, at a 404 with a string [detail], a 422 with a structured
    [detail], and a 502 whose body is not JSON. *)
Lemma request_error_messages :
  request None Demo.good_server RefJSON.parse RefJSON.stringify
    "/api/assessments/zz" GET_json = Err (Error "not found") /\
  (exists msg,
     request None (Demo.constant_server Demo.invalid_upload) RefJSON.parse
       RefJSON.stringify "/api/assessments" no_options = Err (Error msg) /\
     msg = RefJSON.stringify Demo.validation_detail) /\
  request None (Demo.constant_server Demo.bad_gateway)
    RefJSON.parse RefJSON.stringify "/api/health" no_options
  = Err (Error "Error 502: Bad Gateway").
Proof.
  split; [|split].
  - destruct (request_error_message None Demo.good_server RefJSON.parse
                RefJSON.stringify "/api/assessments/zz" GET_json Demo.not_found
                eq_refl eq_refl) as (msg & Hreq & Hstring & _).
    rewrite Hreq. do 2 f_equal.
    apply (Hstring [("detail", VStr "not found")] "not found");
      [vm_compute; reflexivity|reflexivity|discriminate].
  - destruct (request_error_message None
                (Demo.constant_server Demo.invalid_upload)
                RefJSON.parse RefJSON.stringify "/api/assessments" no_options
                Demo.invalid_upload eq_refl eq_refl)
      as (msg & Hreq & _ & Hother & _).
    exists msg. split; [exact Hreq|].
    apply (Hother [("detail", Demo.validation_detail)]);
      [vm_compute; reflexivity|reflexivity|discriminate].
  - destruct (request_error_message None
                (Demo.constant_server Demo.bad_gateway)
                RefJSON.parse RefJSON.stringify "/api/health" no_options
                Demo.bad_gateway eq_refl eq_refl)
      as (msg & Hreq & _ & _ & _ & Hnone).
    rewrite Hreq. do 2 f_equal. rewrite Hnone; [reflexivity|].
    intros props. vm_compute. discriminate.
Defined.

(** C8 at an envelope [{id: "a1"}], which has neither field. *)
Lemma text_fetch_without_field :
  getAssessmentReport None
    (Demo.server (Ok Demo.bare_envelope) (Ok Demo.bare_envelope))
    RefJSON.parse RefJSON.stringify "a1" = Ok (VStr "") /\
  getAssessmentAI None
    (Demo.server (Ok Demo.bare_envelope) (Ok Demo.bare_envelope))
    RefJSON.parse RefJSON.stringify "a1" = Ok (VStr "").
Proof.
  destruct (text_fetch_normalises_missing_field None
              (Demo.server (Ok Demo.bare_envelope) (Ok Demo.bare_envelope))
              RefJSON.parse RefJSON.stringify "a1" Demo.bare_envelope
              [("id", VStr "a1")] ltac:(vm_compute; reflexivity))
    as [Hreport Hai].
  assert (Hno : forall key, key <> "id" -> ~ has_prop key [("id", VStr "a1")]).
  { intros key Hkey [v Hin]. apply list_elem_of_singleton in Hin. congruence. }
  split.
  - apply (proj1 (Hreport eq_refl)). apply Hno. discriminate.
  - apply (proj1 (Hai eq_refl)). apply Hno. discriminate.
Defined.

(** C9 as stated fails: a server that answers 406 to every request without
    [Accept: application/json] refuses [healthCheck] and
    [createAssessment], and serves [getAssessment]. *)
Lemma strict_server_refuses_health_check :
  healthCheck None Demo.strict_server RefJSON.parse RefJSON.stringify
    = Err (Error "Error 406: Not Acceptable") /\
  createAssessment None Demo.strict_server RefJSON.parse RefJSON.stringify
    [("company", FormText "Acme Traders")]
    = Err (Error "Error 406: Not Acceptable") /\
  getAssessment None Demo.strict_server RefJSON.parse RefJSON.stringify "a1"
    = Ok Demo.record.
Proof. repeat split; vm_compute; reflexivity. Qed.
